(** * netbox_inventory: the dynamic-inventory script [inventory.py]

    A shallow embedding of [NetboxInventory] (src/inventory.py) and the
    properties of the inventory document it prints.

    The script is Python over decoded JSON, so the embedding has three
    layers:
    - the values: JSON as Python sees it after [response.json()]
      ([json]), with the few Python operations the script applies to them
      (subscripting, truth value, iteration, [str.format], [str.split],
      dictionary stores);
    - the effects: every method that reaches the network runs in a small
      state-and-exception monad [M] whose state records the URLs requested
      so far and what was printed;
    - the methods of [NetboxInventory], one definition per method, in the
      order of the source. *)

From Stdlib Require Import ZArith String Ascii List Lia DecimalString.
From stdpp Require Import base tactics option list strings.
Import ListNotations.

Set Warnings "-register-all".

Local Open Scope Z_scope.
Local Open Scope string_scope.
Local Open Scope list_scope.

(** ** Values *)

(** Keys of a Python dictionary as the script can produce them: the keys
    of decoded JSON objects are [str]; the keys of [_meta.hostvars] are
    device names, which are whatever JSON scalar the server sent. *)
Inductive pykey : Type :=
  | KNone
  | KBool (b : bool)
  | KInt (z : Z)
  | KStr (s : string).

(** Decoded JSON.  Numbers are the integers (ids, VLAN ids, ports);
    a character of a string is one code point below 256.  A dictionary
    keeps its items in insertion order, as Python 3 does. *)
Inductive json : Type :=
  | JNull
  | JBool (b : bool)
  | JNum (z : Z)
  | JStr (s : string)
  | JList (l : list json)
  | JDict (d : list (pykey * json)).

Inductive exn : Type :=
  | KeyError (k : pykey)
  | TypeError
  | AttributeError
  | IndexError
  | ConnectionError
  | HTTPError (status : Z)
  | JSONDecodeError.

(** A Python expression either has a value or raises. *)
Inductive result (A : Type) : Type :=
  | Ok (a : A)
  | Raise (e : exn).
Arguments Ok {A} a.
Arguments Raise {A} e.

Definition rbind {A B} (r : result A) (k : A -> result B) : result B :=
  match r with
  | Ok a => k a
  | Raise e => Raise e
  end.

Notation "'let!' x ':=' e 'in' k" := (rbind e (fun x => k))
  (at level 10, x name, e at level 100, k at level 200).

(** A loop that appends one computed item per element. *)
Fixpoint rmap {A B} (f : A -> result B) (l : list A) : result (list B) :=
  match l with
  | [] => Ok []
  | x :: l' =>
      let! y := f x in
      let! ys := rmap f l' in
      Ok (y :: ys)
  end.

(** *** Dictionaries *)

(** Python compares keys with [==], under which [True == 1] and
    [False == 0]. *)
Definition key_norm (k : pykey) : pykey :=
  match k with
  | KBool b => KInt (Z.b2z b)
  | _ => k
  end.

Definition key_eqb (a b : pykey) : bool :=
  match key_norm a, key_norm b with
  | KNone, KNone => true
  | KInt x, KInt y => Z.eqb x y
  | KStr s, KStr t => String.eqb s t
  | _, _ => false
  end.

Fixpoint dict_get (d : list (pykey * json)) (k : pykey) : option json :=
  match d with
  | [] => None
  | (k', v) :: d' => if key_eqb k' k then Some v else dict_get d' k
  end.

(** [d[k] = v]: an existing key keeps its place (and its first spelling),
    a new key goes to the end. *)
Fixpoint dict_set (d : list (pykey * json)) (k : pykey) (v : json)
  : list (pykey * json) :=
  match d with
  | [] => [(k, v)]
  | (k', v') :: d' =>
      if key_eqb k' k then (k', v) :: d' else (k', v') :: dict_set d' k v
  end.

Definition dict_keys (d : list (pykey * json)) : list pykey := map fst d.

(** A dictionary display [{'a': x, 'b': y}] with string keys. *)
Definition dict_lit (items : list (string * json)) : json :=
  JDict (map (fun kv => (KStr (fst kv), snd kv)) items).

Definition key_to_json (k : pykey) : json :=
  match k with
  | KNone => JNull
  | KBool b => JBool b
  | KInt z => JNum z
  | KStr s => JStr s
  end.

(** [hash(v)], as a dictionary store needs it: lists and dictionaries are
    unhashable. *)
Definition to_key (v : json) : result pykey :=
  match v with
  | JNull => Ok KNone
  | JBool b => Ok (KBool b)
  | JNum z => Ok (KInt z)
  | JStr s => Ok (KStr s)
  | JList _ | JDict _ => Raise TypeError
  end.

(** *** The Python operations of the script *)

(** [v['k']] with a string subscript. *)
Definition getitem (v : json) (k : string) : result json :=
  match v with
  | JDict d =>
      match dict_get d (KStr k) with
      | Some x => Ok x
      | None => Raise (KeyError (KStr k))
      end
  | _ => Raise TypeError
  end.

(** The truth value tested by [if v:]. *)
Definition truthy (v : json) : bool :=
  match v with
  | JNull => false
  | JBool b => b
  | JNum z => negb (Z.eqb z 0)
  | JStr s => negb (String.eqb s "")
  | JList l => match l with [] => false | _ => true end
  | JDict d => match d with [] => false | _ => true end
  end.

(** The items [for x in v:] runs over. *)
Definition py_iter (v : json) : result (list json) :=
  match v with
  | JList l => Ok l
  | JDict d => Ok (map key_to_json (dict_keys d))
  | JStr s => Ok (map (fun c => JStr (String c "")) (list_ascii_of_string s))
  | _ => Raise TypeError
  end.

(** [s.split(sep)] for a one-character separator: never empty. *)
Fixpoint str_split (sep : ascii) (s : string) : list string :=
  match s with
  | EmptyString => [""]
  | String c s' =>
      if Ascii.eqb c sep then "" :: str_split sep s'
      else match str_split sep s' with
           | [] => [String c ""]
           | piece :: pieces => String c piece :: pieces
           end
  end.

(** [v.split('/')]: only [str] has the method. *)
Definition split_slash (v : json) : result (list string) :=
  match v with
  | JStr s => Ok (str_split "/"%char s)
  | _ => Raise AttributeError
  end.

(** [l[0]] *)
Definition index0 (l : list string) : result string :=
  match l with
  | [] => Raise IndexError
  | x :: _ => Ok x
  end.

Definition str_of_Z (z : Z) : string := NilZero.string_of_int (Z.to_int z).

(** ** Effects *)

(** What the process has done so far: the URLs it has requested, oldest
    first, and the documents it has printed. *)
Record world : Type := World {
  calls : list string;
  stdout : list json
}.

Definition M (A : Type) : Type := world -> result A * world.

Definition ret {A} (a : A) : M A := fun w => (Ok a, w).

Definition lift {A} (r : result A) : M A := fun w => (r, w).

Definition bind {A B} (m : M A) (k : A -> M B) : M B :=
  fun w =>
    match m w with
    | (Ok a, w') => k a w'
    | (Raise e, w') => (Raise e, w')
    end.

Notation "x <- e ;; k" := (bind e (fun x => k))
  (at level 100, e at next level, right associativity).

Fixpoint mapM {A B} (f : A -> M B) (l : list A) : M (list B) :=
  match l with
  | [] => ret []
  | x :: l' =>
      y <- f x ;;
      ys <- mapM f l' ;;
      ret (y :: ys)
  end.

(** [print(json.dumps(doc))]: the document reaches standard output. *)
Definition print (doc : json) : M unit :=
  fun w => (Ok tt, {| calls := calls w; stdout := stdout w ++ [doc] |}).

(** *** The transport ([requests]) *)

Record Response : Type := {
  status_code : Z;
  body : option json      (* [None]: the body is not JSON *)
}.

(** [response.raise_for_status()]: an [HTTPError] for a client or server
    error status, that is, when [400 <= status_code < 600]. *)
Definition error_status (st : Z) : bool :=
  (Z.leb 400 st && Z.ltb st 600)%bool.

Definition raise_for_status (r : Response) : result unit :=
  if error_status (status_code r) then Raise (HTTPError (status_code r))
  else Ok tt.

(** [response.json()] *)
Definition response_json (r : Response) : result json :=
  match body r with
  | Some j => Ok j
  | None => Raise JSONDecodeError
  end.

Record Args : Type := {
  args_list : bool;             (* --list, store_true *)
  args_host : option string     (* --host, None when not given *)
}.

(** The attributes of [self] the methods read.  [headers] exists only
    when a token was given. *)
Record Self : Type := {
  base_url : string;
  headers : option (list (string * string))
}.

(** The attributes [NetboxInventory.__init__] gives [self]. *)
Definition init_self (netbox_server netbox_protocol : string)
    (netbox_port : Z) (netbox_token : option string) : Self :=
  {| base_url := netbox_protocol +:+ "://" +:+ netbox_server +:+ ":"
                 +:+ str_of_Z netbox_port;
     headers :=
       match netbox_token with
       | Some (String c t) =>
           Some [("Authorization", String c t);
                 ("Accept", "application/json");
                 ("Content-Type", "application/json")]
       | _ => None
       end |}.

(** The URL [_api_call] builds for an endpoint. *)
Definition api_url (self : Self) (api_endpoint : string) : string :=
  base_url self +:+ "/api/" +:+ api_endpoint.

(** *** The formatter *)

Definition all_vars : json :=
  dict_lit [("ansible_ssh_user", JStr "vagrant");
            ("ansible_network_os", JStr "eos");
            ("ansible_ssh_private_key_file",
             JStr "~/.vagrant.d/insecure_private_key")].

(** The item the loop of [create_inventory_output] stores for one device:
    the key it is stored under and the host variables. *)
Definition hostvars_item (device : json) : result (json * pykey * json) :=
  let! name := getitem device "name" in
  let! host := getitem device "ansible_ssh_host" in
  let! port := getitem device "ansible_ssh_port" in
  let! interfaces := getitem device "interfaces" in
  let! vlans := getitem device "vlans" in
  let! key := to_key name in
  Ok (name, key, dict_lit [("ansible_host", host);
                           ("ansible_port", port);
                           ("interfaces", interfaces);
                           ("vlans", vlans)]).

(** The loop: [_device] (an alias of [result['_meta']['hostvars']]) and
    [_all_group['hosts']] are updated side by side. *)
Fixpoint inventory_loop (devices : list json)
    (_device : list (pykey * json)) (hosts : list json)
  : result (list (pykey * json) * list json) :=
  match devices with
  | [] => Ok (_device, hosts)
  | device :: rest =>
      let! item := hostvars_item device in
      let '(name, key, vars) := item in
      inventory_loop rest (dict_set _device key vars) (hosts ++ [name])
  end.

Definition inventory_document (_device : list (pykey * json))
    (hosts : list json) : json :=
  dict_lit [("all", dict_lit [("hosts", JList hosts); ("vars", all_vars)]);
            ("_meta", dict_lit [("hostvars", JDict _device)])].

Definition create_inventory_output (devices : list json) : result json :=
  let! filled := inventory_loop devices [] [] in
  Ok (inventory_document (fst filled) (snd filled)).

Definition _empty_inventory : json :=
  dict_lit [("_meta", dict_lit [("hostvars", JDict [])])].

(** ** class NetboxInventory *)

Section Netbox.

(** What [repr] prints for a list or a dictionary.  [str.format] falls
    back on it when an id is itself a container; the text is immaterial
    to everything below. *)
Variable py_repr : json -> string.

(** ['{0}'.format(v)] *)
Definition py_str (v : json) : string :=
  match v with
  | JNull => "None"
  | JBool true => "True"
  | JBool false => "False"
  | JNum z => str_of_Z z
  | JStr s => s
  | JList _ | JDict _ => py_repr v
  end.

(** The NetBox server: what a GET of a URL is answered with, given the
    requests made before it; [None] when no response arrives. *)
Variable server : list string -> string -> option Response.

(** [self.session.get(url, headers=...)] *)
Definition session_get (url : string) : M Response :=
  fun w =>
    let w' := {| calls := calls w ++ [url]; stdout := stdout w |} in
    match server (calls w) url with
    | Some r => (Ok r, w')
    | None => (Raise ConnectionError, w')
    end.

Definition _api_call (self : Self) (api_endpoint : string) : M json :=
  let api_url := base_url self +:+ "/api/" +:+ api_endpoint in
  _ <- lift (match headers self with
             | Some h => Ok h
             | None => Raise AttributeError
             end) ;;
  response <- session_get api_url ;;
  _ <- lift (raise_for_status response) ;;
  lift (response_json response).

(** What [_api_call] makes of the answer to a GET of [url] sent after the
    requests [history]. *)
Definition fetch (history : list string) (url : string) : result json :=
  match server history url with
  | Some response =>
      let! _ := raise_for_status response in response_json response
  | None => Raise ConnectionError
  end.

Definition _device_list (self : Self) : M json :=
  _api_call self "dcim/devices".

Definition _device_interfaces (self : Self) (device_id : json) : M json :=
  interfaces <- _api_call self ("dcim/interfaces/?device_id=" +:+ py_str device_id) ;;
  lift (getitem interfaces "results").

Definition _interface_ip (self : Self) (interface_id : json) : M json :=
  interfaces_ip <- _api_call self ("ipam/ip-addresses/?interface_id=" +:+ py_str interface_id) ;;
  lift (getitem interfaces_ip "results").

Definition _device_primary_ip (self : Self) (device_id : json) : M json :=
  primary_ip <- _api_call self ("dcim/devices/" +:+ py_str device_id) ;;
  lift (let! ip := getitem primary_ip "primary_ip" in
        if truthy ip then
          let! address := getitem ip "address" in
          let! pieces := split_slash address in
          let! first := index0 pieces in
          Ok (JStr first)
        else Ok JNull).

Definition _device_ssh_port (self : Self) (device_id : json) : M json :=
  port_number <- _api_call self ("dcim/devices/" +:+ py_str device_id) ;;
  lift (let! custom_fields := getitem port_number "custom_fields" in
        if truthy custom_fields then getitem custom_fields "ASN"
        else Ok JNull).

(** The body of the loop of [_process_interface_vlans]. *)
Definition vlan_map (interface : json) : result json :=
  let! tagged_vids := getitem interface "tagged_vlans" in
  let! tagged_vlan_list :=
    (if truthy tagged_vids then
       let! vids := py_iter tagged_vids in
       rmap (fun tagged_vid => getitem tagged_vid "vid") vids
     else Ok []) in
  let! untagged := getitem interface "untagged_vlan" in
  let! untagged_vid :=
    (if truthy untagged then getitem untagged "vid" else Ok JNull) in
  let! name := getitem interface "name" in
  let! id := getitem interface "id" in
  Ok (dict_lit [("interface", name);
                ("int_id", id);
                ("untagged_vlan", untagged_vid);
                ("tagged_vlans", JList tagged_vlan_list)]).

Definition _process_interface_vlans (self : Self) (device_id : json)
  : M (list json) :=
  interfaces <- _device_interfaces self device_id ;;
  lift (let! items := py_iter interfaces in rmap vlan_map items).

(** The body of the inner loop of [_process_devices]. *)
Definition interface_hash (self : Self) (interface : json) : M json :=
  int_name <- lift (getitem interface "name") ;;
  int_id <- lift (getitem interface "id") ;;
  ip_addr <- _interface_ip self int_id ;;
  ret (dict_lit [("interface_name", int_name);
                 ("interface_id", int_id);
                 ("ip_address", ip_addr)]).

(** The body of the outer loop of [_process_devices]. *)
Definition device_hash (self : Self) (device : json) : M json :=
  device_id <- lift (getitem device "id") ;;
  interfaces <- _device_interfaces self device_id ;;
  vlans <- _process_interface_vlans self device_id ;;
  device_ip <- _device_primary_ip self device_id ;;
  device_ssh_port <- _device_ssh_port self device_id ;;
  items <- lift (py_iter interfaces) ;;
  int_list <- mapM (interface_hash self) items ;;
  name <- lift (getitem device "name") ;;
  ret (dict_lit [("id", device_id);
                 ("ansible_ssh_host", device_ip);
                 ("ansible_ssh_port", device_ssh_port);
                 ("name", name);
                 ("interfaces", JList int_list);
                 ("vlans", JList vlans)]).

Definition _process_devices (self : Self) : M (list json) :=
  devices <- _device_list self ;;
  results <- lift (let! r := getitem devices "results" in py_iter r) ;;
  mapM (device_hash self) results.

(** [NetboxInventory.__init__], after the attributes of [self] are set:
    the inventory of the mode asked for is built and printed. *)
Definition NetboxInventory (args : Args) (netbox_server netbox_protocol : string)
    (netbox_port : Z) (netbox_token : option string) : M unit :=
  let self := init_self netbox_server netbox_protocol netbox_port netbox_token in
  inventory <-
    (if args_list args then
       devices <- _process_devices self ;;
       lift (create_inventory_output devices)
     else
       match args_host args with
       | Some (String _ _) => ret _empty_inventory
       | _ => ret _empty_inventory
       end) ;;
  print inventory.

Definition main (args : Args) : M unit :=
  NetboxInventory args "netbox01.lab" "http" 80
    (Some "0123456789abcdef0123456789abcdefghijh231").

End Netbox.

(** The process as it starts: nothing requested, nothing printed. *)
Definition start : world := {| calls := []; stdout := [] |}.

(** ** The end-to-end example: one switch *)

Definition ok200 (j : json) : Response :=
  {| status_code := 200; body := Some j |}.

Definition sw1_eth0 : json :=
  dict_lit [("id", JNum 10);
            ("name", JStr "eth0");
            ("tagged_vlans", JList [dict_lit [("vid", JNum 100)]]);
            ("untagged_vlan", dict_lit [("vid", JNum 1)])].

Definition sw1_detail : json :=
  dict_lit [("primary_ip", dict_lit [("address", JStr "192.0.2.1/24")]);
            ("custom_fields", dict_lit [("ASN", JStr "22")])].

(** The mocked API: the four endpoints of the one device; anything else
    is not found. *)
Definition sw1_server (_ : list string) (url : string) : option Response :=
  if String.eqb url "http://netbox01.lab:80/api/dcim/devices" then
    Some (ok200 (dict_lit [("results",
            JList [dict_lit [("id", JNum 1); ("name", JStr "sw1")]])]))
  else if String.eqb url "http://netbox01.lab:80/api/dcim/interfaces/?device_id=1" then
    Some (ok200 (dict_lit [("results", JList [sw1_eth0])]))
  else if String.eqb url "http://netbox01.lab:80/api/ipam/ip-addresses/?interface_id=10" then
    Some (ok200 (dict_lit [("results",
            JList [dict_lit [("address", JStr "192.0.2.5/24")]])]))
  else if String.eqb url "http://netbox01.lab:80/api/dcim/devices/1" then
    Some (ok200 sw1_detail)
  else Some {| status_code := 404; body := None |}.

Definition sw1_document : json :=
  dict_lit
    [("all", dict_lit [("hosts", JList [JStr "sw1"]); ("vars", all_vars)]);
     ("_meta", dict_lit [("hostvars", dict_lit
        [("sw1", dict_lit
           [("ansible_host", JStr "192.0.2.1");
            ("ansible_port", JStr "22");
            ("interfaces", JList [dict_lit
               [("interface_name", JStr "eth0");
                ("interface_id", JNum 10);
                ("ip_address",
                 JList [dict_lit [("address", JStr "192.0.2.5/24")]])]]);
            ("vlans", JList [dict_lit
               [("interface", JStr "eth0");
                ("int_id", JNum 10);
                ("untagged_vlan", JNum 1);
                ("tagged_vlans", JList [JNum 100])]])])])])].


(** ** Reading the printed document, as its consumer does *)

(** [doc['all']['hosts']] and [doc['_meta']['hostvars']] *)
Definition all_hosts (doc : json) : result json :=
  let! group := getitem doc "all" in getitem group "hosts".

Definition meta_hostvars (doc : json) : result json :=
  let! meta := getitem doc "_meta" in getitem meta "hostvars".

(** [k in ks], with Python's equality on keys. *)
Definition key_in (k : pykey) (ks : list pykey) : bool :=
  existsb (fun k' => key_eqb k' k) ks.

(** No two keys of the list are equal. *)
Fixpoint distinct_keys (ks : list pykey) : bool :=
  match ks with
  | [] => true
  | k :: ks' => negb (key_in k ks') && distinct_keys ks'
  end.

(** The value stored last under [k] by a run of stores, if any. *)
Fixpoint last_store (k : pykey) (items : list (json * pykey * json))
  : option json :=
  match items with
  | [] => None
  | (_, k', v) :: rest =>
      match last_store k rest with
      | Some v' => Some v'
      | None => if key_eqb k' k then Some v else None
      end
  end.

Definition store (d : list (pykey * json)) (item : json * pykey * json)
  : list (pykey * json) :=
  dict_set d (snd (fst item)) (snd item).

Definition item_name (item : json * pykey * json) : json := fst (fst item).
Definition item_key (item : json * pykey * json) : pykey := snd (fst item).

(** The host variables [create_inventory_output] writes for a device. *)
Definition hostvars_of (host port interfaces vlans : json) : json :=
  dict_lit [("ansible_host", host);
            ("ansible_port", port);
            ("interfaces", interfaces);
            ("vlans", vlans)].

(** None of the keys is in the dictionary yet. *)
Definition fresh_keys (hv : list (pykey * json)) (ks : list pykey) : bool :=
  forallb (fun k => negb (key_in k (dict_keys hv))) ks.

(** ** Two device records under one name *)

Definition twin (host : json) : json :=
  dict_lit [("id", JNum 1);
            ("ansible_ssh_host", host);
            ("ansible_ssh_port", JNull);
            ("name", JStr "sw1");
            ("interfaces", JList []);
            ("vlans", JList [])].

Definition twins : list json := [twin (JStr "10.0.0.1"); twin (JStr "10.0.0.2")].

Definition twins_document : json :=
  inventory_document
    [(KStr "sw1", hostvars_of (JStr "10.0.0.2") JNull (JList []) (JList []))]
    [JStr "sw1"; JStr "sw1"].

(** ** Invocations and small servers used as examples *)

Definition list_mode : Args := {| args_list := true; args_host := None |}.

(** The examples only have integer ids, for which [repr] is not
    consulted. *)
Definition no_repr (_ : json) : string := "".

(** A server that lists one device and then fails every request. *)
Definition flaky_server (_ : list string) (url : string) : option Response :=
  if String.eqb url "http://netbox01.lab:80/api/dcim/devices" then
    Some (ok200 (dict_lit [("results",
            JList [dict_lit [("id", JNum 1); ("name", JStr "sw1")]])]))
  else Some {| status_code := 500; body := None |}.

(** ** The URLs of a device *)

(** The URL [_device_interfaces] requests for a device id, and the one
    [_device_primary_ip] and [_device_ssh_port] request. *)
Definition interfaces_url (py_repr : json -> string) (self : Self)
    (device_id : json) : string :=
  api_url self ("dcim/interfaces/?device_id=" +:+ py_str py_repr device_id).

Definition detail_url (py_repr : json -> string) (self : Self)
    (device_id : json) : string :=
  api_url self ("dcim/devices/" +:+ py_str py_repr device_id).

(** ** A device with nothing optional set *)

(** The attributes [main] gives [self]. *)
Definition main_self : Self :=
  init_self "netbox01.lab" "http" 80
    (Some "0123456789abcdef0123456789abcdefghijh231").

Definition bare_eth0 : json :=
  dict_lit [("id", JNum 10);
            ("name", JStr "eth0");
            ("tagged_vlans", JList []);
            ("untagged_vlan", JNull)].

Definition bare_detail : json :=
  dict_lit [("primary_ip", JNull); ("custom_fields", dict_lit [])].

(** One device, one interface without VLANs or addresses, no primary IP
    and no custom fields. *)
Definition bare_server (_ : list string) (url : string) : option Response :=
  if String.eqb url "http://netbox01.lab:80/api/dcim/devices" then
    Some (ok200 (dict_lit [("results",
            JList [dict_lit [("id", JNum 1); ("name", JStr "sw1")]])]))
  else if String.eqb url "http://netbox01.lab:80/api/dcim/interfaces/?device_id=1" then
    Some (ok200 (dict_lit [("results", JList [bare_eth0])]))
  else if String.eqb url "http://netbox01.lab:80/api/ipam/ip-addresses/?interface_id=10" then
    Some (ok200 (dict_lit [("results", JList [])]))
  else if String.eqb url "http://netbox01.lab:80/api/dcim/devices/1" then
    Some (ok200 bare_detail)
  else Some {| status_code := 404; body := None |}.

(** The same device when its detail record has no [custom_fields] key at
    all. *)
Definition keyless_server (h : list string) (url : string) : option Response :=
  if String.eqb url "http://netbox01.lab:80/api/dcim/devices/1" then
    Some (ok200 (dict_lit [("primary_ip", JNull)]))
  else bare_server h url.

(** An interface as NetBox lists it when no VLAN is assigned. *)
Definition no_vlan_data (interface : json) : Prop :=
  (getitem interface "tagged_vlans" = Ok JNull \/
   getitem interface "tagged_vlans" = Ok (JList [])) /\
  getitem interface "untagged_vlan" = Ok JNull.

(** ** Two entries about one interface *)

(** An entry of [interfaces] and an entry of [vlans] that carry the same
    interface id and the same interface name. *)
Definition same_interface (entry vlan_entry : json) : Prop :=
  exists id name,
    getitem entry "interface_id" = Ok id /\
    getitem vlan_entry "int_id" = Ok id /\
    getitem entry "interface_name" = Ok name /\
    getitem vlan_entry "interface" = Ok name.

(** ** Two devices answering to one name *)

Definition namesake_detail : json :=
  dict_lit [("primary_ip", dict_lit [("address", JStr "10.0.0.2/24")]);
            ("custom_fields", dict_lit [])].

(** Devices 1 and 2 are both named sw1; only device 2 has a primary IP.
    Neither has interfaces. *)
Definition namesake_server (_ : list string) (url : string) : option Response :=
  if String.eqb url "http://netbox01.lab:80/api/dcim/devices" then
    Some (ok200 (dict_lit [("results",
            JList [dict_lit [("id", JNum 1); ("name", JStr "sw1")];
                   dict_lit [("id", JNum 2); ("name", JStr "sw1")]])]))
  else if String.eqb url "http://netbox01.lab:80/api/dcim/devices/1" then
    Some (ok200 bare_detail)
  else if String.eqb url "http://netbox01.lab:80/api/dcim/devices/2" then
    Some (ok200 namesake_detail)
  else if String.eqb url "http://netbox01.lab:80/api/dcim/interfaces/?device_id=1" then
    Some (ok200 (dict_lit [("results", JList [])]))
  else if String.eqb url "http://netbox01.lab:80/api/dcim/interfaces/?device_id=2" then
    Some (ok200 (dict_lit [("results", JList [])]))
  else Some {| status_code := 404; body := None |}.


Definition bare_document : json :=
  inventory_document
    [(KStr "sw1",
      hostvars_of JNull JNull
        (JList [dict_lit [("interface_name", JStr "eth0");
                          ("interface_id", JNum 10);
                          ("ip_address", JList [])]])
        (JList [dict_lit [("interface", JStr "eth0");
                          ("int_id", JNum 10);
                          ("untagged_vlan", JNull);
                          ("tagged_vlans", JList [])]]))]
    [JStr "sw1"].

(** ** The discipline of the requests *)

(** Of the requests [ext] sent after [base], one that failed was the last
    one sent, and its exception is the outcome [r]. *)
Definition answered (server : list string -> string -> option Response) {A}
    (base ext : list string) (r : result A) : Prop :=
  forall i url e,
    ext !! i = Some url ->
    fetch server (base ++ take i ext) url = Raise e ->
    S i = length ext /\ r = Raise e.

(** A computation that prints nothing, only adds requests to the log, and
    stops at the first request that fails. *)
Definition fail_fast (server : list string -> string -> option Response) {A}
    (m : M A) : Prop :=
  forall w r w',
    m w = (r, w') ->
    stdout w' = stdout w /\
    exists ext, calls w' = calls w ++ ext /\ answered server (calls w) ext r.

(** ** The requests of a run *)

(** The URL [_interface_ip] requests for an interface id. *)
Definition addresses_url (py_repr : json -> string) (self : Self)
    (interface_id : json) : string :=
  api_url self ("ipam/ip-addresses/?interface_id=" +:+ py_str py_repr interface_id).

(** The four kinds of URL the methods build. *)
Definition inventory_url (py_repr : json -> string) (self : Self)
    (url : string) : Prop :=
  url = api_url self "dcim/devices" \/
  (exists device_id, url = interfaces_url py_repr self device_id) \/
  (exists device_id, url = detail_url py_repr self device_id) \/
  (exists interface_id, url = addresses_url py_repr self interface_id).

(** A computation whose requests all satisfy [P]. *)
Definition requests_only (P : string -> Prop) {A} (m : M A) : Prop :=
  forall w r w',
    m w = (r, w') -> exists ext, calls w' = calls w ++ ext /\ Forall P ext.

(** The number of entries under [interfaces] in a device record. *)
Definition interface_count (record : json) : nat :=
  match getitem record "interfaces" with
  | Ok (JList entries) => length entries
  | _ => 0%nat
  end.

(** What the requests of one device are: its interface listing twice, its
    detail twice, then the addresses of each interface. *)
Definition device_requests (py_repr : json -> string) (self : Self)
    (device_id : json) (interface_ids : list json) : list string :=
  [interfaces_url py_repr self device_id;
   interfaces_url py_repr self device_id;
   detail_url py_repr self device_id;
   detail_url py_repr self device_id]
  ++ map (addresses_url py_repr self) interface_ids.

(** * Properties *)

(** ** Keys and dictionaries *)

Lemma key_eqb_norm a b : key_eqb a b = true <-> key_norm a = key_norm b.
Proof.
  unfold key_eqb.
  destruct a as [| x | x | x], b as [| y | y | y]; simpl;
    try (split; [discriminate | congruence]);
    try (split; congruence).
  - rewrite Z.eqb_eq. split; congruence.
  - rewrite Z.eqb_eq. split; congruence.
  - rewrite Z.eqb_eq. split; congruence.
  - rewrite Z.eqb_eq. split; congruence.
  - rewrite String.eqb_eq. split; congruence.
Qed.

Lemma key_eqb_refl k : key_eqb k k = true.
Proof. by apply key_eqb_norm. Qed.

Lemma key_eqb_sym a b : key_eqb a b = key_eqb b a.
Proof.
  destruct (key_eqb a b) eqn:E, (key_eqb b a) eqn:F; try done.
  - apply key_eqb_norm in E. symmetry in E. apply key_eqb_norm in E. congruence.
  - apply key_eqb_norm in F. symmetry in F. apply key_eqb_norm in F. congruence.
Qed.

Lemma key_eqb_congr a b c : key_eqb a b = true -> key_eqb a c = key_eqb b c.
Proof.
  intros E. apply key_eqb_norm in E.
  destruct (key_eqb a c) eqn:F, (key_eqb b c) eqn:G; try done.
  - apply key_eqb_norm in F. rewrite E in F. apply key_eqb_norm in F. congruence.
  - apply key_eqb_norm in G. rewrite <- E in G. apply key_eqb_norm in G. congruence.
Qed.

Lemma dict_get_set_eq d k v k' :
  key_eqb k k' = true -> dict_get (dict_set d k v) k' = Some v.
Proof.
  intros E. induction d as [| [k0 v0] d IH]; simpl.
  - by rewrite E.
  - destruct (key_eqb k0 k) eqn:F; simpl.
    + rewrite (key_eqb_congr _ _ _ F), E. done.
    + destruct (key_eqb k0 k') eqn:G; [| done].
      rewrite key_eqb_sym in E. rewrite key_eqb_sym in G.
      rewrite (key_eqb_congr _ _ _ E) in G.
      rewrite key_eqb_sym in G. congruence.
Qed.

Lemma dict_get_set_ne d k v k' :
  key_eqb k k' = false -> dict_get (dict_set d k v) k' = dict_get d k'.
Proof.
  intros E. induction d as [| [k0 v0] d IH]; simpl.
  - by rewrite E.
  - destruct (key_eqb k0 k) eqn:F; simpl.
    + rewrite (key_eqb_congr _ _ _ F), E. done.
    + destruct (key_eqb k0 k'); done.
Qed.

Lemma dict_keys_set d k v :
  dict_keys (dict_set d k v) =
  if key_in k (dict_keys d) then dict_keys d else dict_keys d ++ [k].
Proof.
  induction d as [| [k0 v0] d IH]; simpl; [done |].
  destruct (key_eqb k0 k) eqn:F; simpl; [done |].
  unfold dict_keys in *. rewrite IH.
  destruct (key_in k (map fst d)); done.
Qed.

Lemma key_in_app k ks1 ks2 :
  key_in k (ks1 ++ ks2) = (key_in k ks1 || key_in k ks2)%bool.
Proof. unfold key_in. apply existsb_app. Qed.

Lemma key_in_congr a b ks : key_eqb a b = true -> key_in a ks = key_in b ks.
Proof.
  intros E. unfold key_in. induction ks as [| k ks IH]; simpl; [done |].
  rewrite IH. f_equal.
  rewrite (key_eqb_sym k a), (key_eqb_sym k b). by apply key_eqb_congr.
Qed.


(** ** Expressions that may raise *)

Lemma rbind_Ok {A B} (r : result A) (k : A -> result B) b :
  rbind r k = Ok b -> exists a, r = Ok a /\ k a = Ok b.
Proof. destruct r; simpl; [eauto | discriminate]. Qed.

Lemma rmap_Ok {A B} (f : A -> result B) l ys :
  rmap f l = Ok ys <-> Forall2 (fun x y => f x = Ok y) l ys.
Proof.
  revert ys. induction l as [| x l IH]; intros ys; simpl.
  - split; [intros [= <-]; constructor | by inversion 1].
  - split.
    + intros H. apply rbind_Ok in H as (y & Hy & H).
      apply rbind_Ok in H as (ys' & Hys & [= <-]).
      constructor; [done | by apply IH].
    + inversion 1 as [| ? y ? ys' Hy Hys]; subst.
      rewrite Hy. simpl. apply IH in Hys. rewrite Hys. done.
Qed.

Lemma rmap_length {A B} (f : A -> result B) l ys :
  rmap f l = Ok ys -> length ys = length l.
Proof. intros H. apply rmap_Ok in H. symmetry. by eapply Forall2_length. Qed.

(** ** The formatter's loop *)

Lemma hostvars_item_Ok device name key vars :
  hostvars_item device = Ok (name, key, vars) ->
  getitem device "name" = Ok name /\ to_key name = Ok key /\
  exists host port interfaces vlans,
    getitem device "ansible_ssh_host" = Ok host /\
    getitem device "ansible_ssh_port" = Ok port /\
    getitem device "interfaces" = Ok interfaces /\
    getitem device "vlans" = Ok vlans /\
    vars = hostvars_of host port interfaces vlans.
Proof.
  unfold hostvars_item. intros H.
  apply rbind_Ok in H as (n & Hn & H).
  apply rbind_Ok in H as (h & Hh & H).
  apply rbind_Ok in H as (p & Hp & H).
  apply rbind_Ok in H as (i & Hi & H).
  apply rbind_Ok in H as (v & Hv & H).
  apply rbind_Ok in H as (k & Hk & H).
  injection H as <- <- <-.
  repeat split; try done. by exists h, p, i, v.
Qed.

(** The loop stores the devices' items one after the other, and fails as
    a whole with the first device whose item cannot be built. *)
Lemma inventory_loop_items devices hv hosts :
  inventory_loop devices hv hosts =
  let! items := rmap hostvars_item devices in
  Ok (fold_left store items hv, hosts ++ map item_name items).
Proof.
  revert hv hosts. induction devices as [| d devices IH]; intros hv hosts; simpl.
  - by rewrite app_nil_r.
  - destruct (hostvars_item d) as [[[n k] v] | e]; simpl; [| done].
    rewrite IH. destruct (rmap hostvars_item devices) as [items | e]; simpl; [| done].
    by rewrite <- app_assoc.
Qed.

Lemma fold_store_get items hv k :
  dict_get (fold_left store items hv) k =
  match last_store k items with
  | Some v => Some v
  | None => dict_get hv k
  end.
Proof.
  revert hv. induction items as [| [[n k'] v] items IH]; intros hv; simpl; [done |].
  rewrite IH. destruct (last_store k items); [done |].
  unfold store; simpl. destruct (key_eqb k' k) eqn:E.
  - by apply dict_get_set_eq.
  - by apply dict_get_set_ne.
Qed.

Lemma fold_store_keys items hv k :
  key_in k (dict_keys (fold_left store items hv)) =
  (key_in k (dict_keys hv) || key_in k (map item_key items))%bool.
Proof.
  revert hv. induction items as [| [[n k'] v] items IH]; intros hv; simpl.
  - by rewrite orb_false_r.
  - rewrite IH. unfold store; simpl. rewrite dict_keys_set.
    unfold item_key at 2; simpl.
    destruct (key_in k' (dict_keys hv)) eqn:E.
    + destruct (key_eqb k' k) eqn:F; simpl; [| done].
      rewrite <- (key_in_congr _ _ _ F), E. done.
    + rewrite key_in_app. simpl. rewrite orb_false_r, orb_assoc. done.
Qed.

Lemma dict_set_length d k v :
  length (dict_set d k v) =
  if key_in k (dict_keys d) then length d else S (length d).
Proof.
  induction d as [| [k0 v0] d IH]; simpl; [done |].
  destruct (key_eqb k0 k); simpl; [done |].
  rewrite IH. by destruct (key_in k (dict_keys d)).
Qed.

Lemma store_length hv it :
  length (store hv it) =
  if key_in (item_key it) (dict_keys hv) then length hv else S (length hv).
Proof. unfold store. apply dict_set_length. Qed.

Lemma store_keys hv it :
  dict_keys (store hv it) =
  if key_in (item_key it) (dict_keys hv) then dict_keys hv
  else dict_keys hv ++ [item_key it].
Proof. unfold store. apply dict_keys_set. Qed.

Lemma fold_store_length_le items hv :
  (length (fold_left store items hv) <= length hv + length items)%nat.
Proof.
  revert hv. induction items as [| it items IH]; intros hv; simpl; [lia |].
  specialize (IH (store hv it)). rewrite store_length in IH.
  destruct (key_in _ _); lia.
Qed.

Lemma fresh_keys_store hv it ks :
  key_in (item_key it) (dict_keys hv) = false ->
  fresh_keys (store hv it) ks =
  (negb (key_in (item_key it) ks) && fresh_keys hv ks)%bool.
Proof.
  intros Hk. unfold fresh_keys.
  induction ks as [| k1 ks IHks]; simpl; [done |].
  rewrite IHks, store_keys, Hk, key_in_app. simpl.
  rewrite orb_false_r, (key_eqb_sym k1 (item_key it)).
  destruct (key_in k1 (dict_keys hv)), (key_eqb (item_key it) k1),
    (key_in (item_key it) ks),
    (forallb (fun k0 => negb (key_in k0 (dict_keys hv))) ks); done.
Qed.

Lemma fold_store_length_eq items hv :
  length (fold_left store items hv) = (length hv + length items)%nat <->
  distinct_keys (map item_key items) = true /\
  fresh_keys hv (map item_key items) = true.
Proof.
  revert hv. induction items as [| it items IH]; intros hv; simpl.
  - split; [done | lia].
  - pose proof (fold_store_length_le items (store hv it)) as Hle.
    specialize (IH (store hv it)).
    rewrite store_length in Hle, IH.
    destruct (key_in (item_key it) (dict_keys hv)) eqn:Hk; simpl.
    + split; [lia |]. intros [_ H]. discriminate.
    + rewrite fresh_keys_store in IH by done.
      rewrite !andb_true_iff, !negb_true_iff in *.
      split.
      * intros H.
        assert (Heq : length (fold_left store items (store hv it))
                      = (S (length hv) + length items)%nat) by lia.
        apply IH in Heq. tauto.
      * intros H.
        assert (Hgoal : length (fold_left store items (store hv it))
                        = (S (length hv) + length items)%nat)
          by (apply IH; tauto).
        lia.
Qed.

Lemma distinct_keys_snoc ks k :
  distinct_keys (ks ++ [k]) = (distinct_keys ks && negb (key_in k ks))%bool.
Proof.
  induction ks as [| a ks IH]; simpl; [done |].
  rewrite IH, key_in_app. simpl. rewrite orb_false_r, (key_eqb_sym k a).
  destruct (key_in a ks), (key_eqb a k), (distinct_keys ks), (key_in k ks); done.
Qed.

Lemma fold_store_distinct items hv :
  distinct_keys (dict_keys hv) = true ->
  distinct_keys (dict_keys (fold_left store items hv)) = true.
Proof.
  revert hv. induction items as [| it items IH]; intros hv Hhv; simpl; [done |].
  apply IH. rewrite store_keys.
  destruct (key_in (item_key it) (dict_keys hv)) eqn:E; [done |].
  by rewrite distinct_keys_snoc, Hhv, E.
Qed.

Lemma last_store_None k items :
  (forall j it, items !! j = Some it -> key_eqb (item_key it) k = false) ->
  last_store k items = None.
Proof.
  induction items as [| [[n k'] v] items IH]; intros H; simpl; [done |].
  rewrite IH.
  - pose proof (H 0%nat (n, k', v) eq_refl) as H0.
    unfold item_key in H0; simpl in H0. by rewrite H0.
  - intros j it Hj. by apply (H (S j)).
Qed.

Lemma last_store_last items i n k v :
  items !! i = Some (n, k, v) ->
  (forall j it, (i < j)%nat -> items !! j = Some it ->
                key_eqb (item_key it) k = false) ->
  last_store k items = Some v.
Proof.
  revert i. induction items as [| [[n' k'] v'] items IH]; intros i Hi Hlater.
  - done.
  - destruct i as [| i]; simpl in *.
    + injection Hi as -> -> ->.
      rewrite last_store_None, key_eqb_refl; [done |].
      intros j it Hj. apply (Hlater (S j)); [lia | done].
    + rewrite (IH i Hi); [done |].
      intros j it Hlt Hj. apply (Hlater (S j)); [lia | done].
Qed.

Lemma rmap_total {A B} (f : A -> result B) l :
  Forall (fun x => exists y, f x = Ok y) l <-> exists ys, rmap f l = Ok ys.
Proof.
  induction l as [| x l IH]; simpl.
  - split; [by exists [] | constructor].
  - split.
    + inversion 1 as [| ? ? [y Hy] Hl]; subst.
      apply IH in Hl as [ys Hys]. exists (y :: ys). by rewrite Hy, Hys.
    + intros [ys H]. apply rbind_Ok in H as (y & Hy & H).
      apply rbind_Ok in H as (ys' & Hys & _).
      constructor; [by exists y | apply IH; by exists ys'].
Qed.

Lemma create_inventory_output_items devices doc :
  create_inventory_output devices = Ok doc <->
  exists items,
    rmap hostvars_item devices = Ok items /\
    doc = inventory_document (fold_left store items []) (map item_name items).
Proof.
  unfold create_inventory_output. rewrite inventory_loop_items.
  destruct (rmap hostvars_item devices) as [items | e]; simpl.
  - split.
    + intros [= <-]. by exists items.
    + intros (items' & [= <-] & ->). done.
  - split; [done | by intros (? & ? & ?)].
Qed.

Lemma all_hosts_document hv hosts :
  all_hosts (inventory_document hv hosts) = Ok (JList hosts).
Proof. reflexivity. Qed.

Lemma meta_hostvars_document hv hosts :
  meta_hostvars (inventory_document hv hosts) = Ok (JDict hv).
Proof. reflexivity. Qed.

Lemma items_names devices items :
  rmap hostvars_item devices = Ok items ->
  rmap (fun d => getitem d "name") devices = Ok (map item_name items) /\
  rmap to_key (map item_name items) = Ok (map item_key items).
Proof.
  revert items. induction devices as [| d devices IH]; intros items; simpl.
  - by intros [= <-].
  - intros H. apply rbind_Ok in H as ([[n k] v] & Hd & H).
    apply rbind_Ok in H as (items' & Hitems & [= <-]).
    apply hostvars_item_Ok in Hd as (Hn & Hk & _).
    destruct (IH _ Hitems) as [IH1 IH2]. simpl.
    change (item_name (n, k, v)) with n. change (item_key (n, k, v)) with k.
    by rewrite Hn, IH1, Hk, IH2.
Qed.

(** ** The formatter: hosts against hostvars *)

(** C2 (as amended).  In the document [create_inventory_output] builds,
    [all.hosts] and the keys of [_meta.hostvars] hold the same names
    (equal as sets), [_meta.hostvars] has exactly one entry per name, so
    it is never longer than [all.hosts], and the two have the same length
    exactly when no two devices share a name. *)
Theorem hosts_and_hostvars_same_names (devices : list json) (doc : json) :
  create_inventory_output devices = Ok doc ->
  exists hosts names hv,
    all_hosts doc = Ok (JList hosts) /\
    meta_hostvars doc = Ok (JDict hv) /\
    rmap to_key hosts = Ok names /\
    length hosts = length devices /\
    (forall k, key_in k names = key_in k (dict_keys hv)) /\
    distinct_keys (dict_keys hv) = true /\
    (length hv <= length hosts)%nat /\
    (length hv = length hosts <-> distinct_keys names = true).
Proof.
  intros H. apply create_inventory_output_items in H as (items & Hitems & ->).
  exists (map item_name items), (map item_key items), (fold_left store items []).
  destruct (items_names _ _ Hitems) as [_ Hkeys].
  pose proof (fold_store_length_le items []) as Hle.
  pose proof (fold_store_length_eq items []) as Heq.
  rewrite length_map. simpl in Hle, Heq.
  repeat split; try done.
  - apply rmap_length in Hitems. done.
  - intros k. by rewrite fold_store_keys.
  - by apply fold_store_distinct.
  - intros Hlen. by apply Heq.
  - intros Hd. apply Heq. split; [done |].
    unfold fresh_keys. simpl. by apply forallb_forall.
Qed.

Lemma hosts_and_hostvars_same_names_witness :
  create_inventory_output twins = Ok twins_document /\
  exists hosts names hv,
    all_hosts twins_document = Ok (JList hosts) /\
    meta_hostvars twins_document = Ok (JDict hv) /\
    rmap to_key hosts = Ok names /\
    length hosts = length twins /\
    (forall k, key_in k names = key_in k (dict_keys hv)) /\
    distinct_keys (dict_keys hv) = true /\
    (length hv <= length hosts)%nat /\
    (length hv = length hosts <-> distinct_keys names = true).
Proof.
  split; [reflexivity |].
  apply (hosts_and_hostvars_same_names twins twins_document). reflexivity.
Defined.

(** C2, as stated, fails: two devices named sw1 give two hosts and one
    hostvars entry. *)
Lemma twins_hosts_outnumber_hostvars :
  create_inventory_output twins = Ok twins_document /\
  all_hosts twins_document = Ok (JList [JStr "sw1"; JStr "sw1"]) /\
  meta_hostvars twins_document =
    Ok (JDict [(KStr "sw1",
                hostvars_of (JStr "10.0.0.2") JNull (JList []) (JList []))]) /\
  length [JStr "sw1"; JStr "sw1"] <>
  length [(KStr "sw1",
           hostvars_of (JStr "10.0.0.2") JNull (JList []) (JList []))].
Proof. repeat split; try reflexivity. discriminate. Qed.

(** C3.  The formatter takes the devices in the order received: it
    succeeds whenever each device on its own has a storable item (sharing
    a name is no error), [all.hosts] is the list of the devices' names in
    that order, one per device, and under each name [_meta.hostvars]
    holds the host variables of the last device of that name. *)
Theorem formatter_in_order_last_write_wins (devices : list json) :
  (Forall (fun d => exists item, hostvars_item d = Ok item) devices <->
   exists doc, create_inventory_output devices = Ok doc) /\
  forall doc, create_inventory_output devices = Ok doc ->
    exists hosts hv,
      all_hosts doc = Ok (JList hosts) /\
      meta_hostvars doc = Ok (JDict hv) /\
      rmap (fun d => getitem d "name") devices = Ok hosts /\
      forall i d name key vars,
        devices !! i = Some d ->
        hostvars_item d = Ok (name, key, vars) ->
        (forall j d' item', (i < j)%nat -> devices !! j = Some d' ->
           hostvars_item d' = Ok item' -> key_eqb (item_key item') key = false) ->
        dict_get hv key = Some vars.
Proof.
  split.
  - rewrite rmap_total. split.
    + intros [items Hitems]. eexists. apply create_inventory_output_items. eauto.
    + intros [doc H]. apply create_inventory_output_items in H as (items & ? & _).
      eauto.
  - intros doc H. apply create_inventory_output_items in H as (items & Hitems & ->).
    exists (map item_name items), (fold_left store items []).
    destruct (items_names _ _ Hitems) as [Hnames _].
    repeat split; try done.
    intros i d name key vars Hi Hd Hlater.
    rewrite fold_store_get. apply rmap_Ok in Hitems.
    destruct (Forall2_lookup_l _ _ _ _ _ Hitems Hi) as (it & Hit & Hdit).
    rewrite Hd in Hdit. injection Hdit as <-.
    rewrite (last_store_last items i name key vars Hit); [done |].
    intros j it' Hlt Hj.
    destruct (Forall2_lookup_r _ _ _ _ _ Hitems Hj) as (d' & Hd' & Hd'it).
    by apply (Hlater j d' it').
Qed.

Lemma formatter_in_order_last_write_wins_witness :
  create_inventory_output twins = Ok twins_document /\
  all_hosts twins_document = Ok (JList [JStr "sw1"; JStr "sw1"]) /\
  exists hv,
    meta_hostvars twins_document = Ok (JDict hv) /\
    dict_get hv (KStr "sw1") =
      Some (hostvars_of (JStr "10.0.0.2") JNull (JList []) (JList [])).
Proof.
  split; [reflexivity |]. split; [reflexivity |].
  destruct (formatter_in_order_last_write_wins twins) as [_ H].
  destruct (H twins_document eq_refl) as (hosts & hv & _ & Hhv & _ & Hlast).
  exists hv. split; [exact Hhv |].
  apply (Hlast 1%nat (twin (JStr "10.0.0.2")) (JStr "sw1")); try reflexivity.
  intros j d' item' Hlt Hj. destruct j as [| [| j]]; [lia | lia | discriminate].
Defined.

(** ** Running the methods *)

Lemma bind_Ok {A B} (m : M A) (k : A -> M B) w b w' :
  bind m k w = (Ok b, w') ->
  exists a w1, m w = (Ok a, w1) /\ k a w1 = (Ok b, w').
Proof.
  unfold bind. destruct (m w) as [[a | e] w1]; [eauto | discriminate].
Qed.

Lemma lift_Ok {A} (r : result A) w a w' :
  lift r w = (Ok a, w') -> r = Ok a /\ w' = w.
Proof. unfold lift. intros [= -> ->]. done. Qed.

Lemma ret_Ok {A} (x : A) w a w' : ret x w = (Ok a, w') -> a = x /\ w' = w.
Proof. unfold ret. intros [= -> ->]. done. Qed.

Lemma mapM_Ok {A B} (f : A -> M B) l w ys w' :
  mapM f l w = (Ok ys, w') ->
  Forall2 (fun x y => exists w1 w2, f x w1 = (Ok y, w2)) l ys.
Proof.
  revert w ys w'. induction l as [| x l IH]; intros w ys w'; simpl.
  - intros H. apply ret_Ok in H as [-> _]. constructor.
  - intros H. apply bind_Ok in H as (y & w1 & Hy & H).
    apply bind_Ok in H as (ys' & w2 & Hys & H).
    apply ret_Ok in H as [-> _].
    constructor; [eauto | by eapply IH].
Qed.

Section Run.

Variable py_repr : json -> string.
Variable server : list string -> string -> option Response.

Lemma api_call_run self api_endpoint w :
  _api_call server self api_endpoint w =
  match headers self with
  | Some _ =>
      (fetch server (calls w) (api_url self api_endpoint),
       {| calls := calls w ++ [api_url self api_endpoint];
          stdout := stdout w |})
  | None => (Raise AttributeError, w)
  end.
Proof.
  unfold _api_call, bind, lift, session_get, fetch, api_url.
  destruct (headers self); [| done].
  destruct (server _ _) as [r |]; [| done].
  destruct (raise_for_status r); done.
Qed.

Lemma api_call_Ok self api_endpoint w j w' :
  _api_call server self api_endpoint w = (Ok j, w') ->
  fetch server (calls w) (api_url self api_endpoint) = Ok j.
Proof.
  rewrite api_call_run. destruct (headers self); [| discriminate].
  by intros [= -> _].
Qed.

(** *** Every failed request ends the run *)

Lemma fail_fast_lift {A} (r : result A) : fail_fast server (lift r).
Proof.
  intros w r' w' [= <- <-]. split; [done |].
  exists []. split; [by rewrite app_nil_r |]. intros i url e Hi. done.
Qed.

Lemma fail_fast_ret {A} (a : A) : fail_fast server (ret a).
Proof. apply (fail_fast_lift (Ok a)). Qed.

Lemma fail_fast_bind {A B} (m : M A) (k : A -> M B) :
  fail_fast server m -> (forall a, fail_fast server (k a)) -> fail_fast server (bind m k).
Proof.
  intros Hm Hk w r w'. unfold bind.
  destruct (m w) as [[a | e] w1] eqn:Em.
  - intros Ek. destruct (Hm _ _ _ Em) as (Hout1 & ext1 & Hc1 & Ha1).
    destruct (Hk a _ _ _ Ek) as (Hout2 & ext2 & Hc2 & Ha2).
    split; [congruence |].
    exists (ext1 ++ ext2). split; [by rewrite Hc2, Hc1, app_assoc |].
    intros i url e Hi Hf.
    destruct (decide (i < length ext1)%nat) as [Hlt | Hge].
    + rewrite lookup_app_l in Hi by done.
      rewrite take_app_le in Hf by lia.
      destruct (Ha1 i url e Hi Hf) as [_ ?]. discriminate.
    + rewrite lookup_app_r in Hi by lia.
      rewrite take_app_ge in Hf by lia.
      rewrite app_assoc, <- Hc1 in Hf.
      destruct (Ha2 _ url e Hi Hf) as [Hlast ->].
      split; [rewrite length_app; lia | done].
  - intros [= <- <-]. destruct (Hm _ _ _ Em) as (Hout1 & ext1 & Hc1 & Ha1).
    split; [done |]. exists ext1. split; [done |].
    intros i url e' Hi Hf. destruct (Ha1 i url e' Hi Hf) as [? [= ->]]. done.
Qed.

Lemma fail_fast_mapM {A B} (f : A -> M B) l :
  (forall x, fail_fast server (f x)) -> fail_fast server (mapM f l).
Proof.
  intros Hf. induction l as [| x l IH]; simpl.
  - apply fail_fast_ret.
  - apply fail_fast_bind; [done |]. intros y.
    apply fail_fast_bind; [done |]. intros ys. apply fail_fast_ret.
Qed.

Lemma fail_fast_api_call self api_endpoint :
  fail_fast server (_api_call server self api_endpoint).
Proof.
  intros w r w'. rewrite api_call_run.
  destruct (headers self).
  - intros [= <- <-]. simpl. split; [done |].
    eexists. split; [done |].
    intros i url e Hi Hf. destruct i as [| i]; simpl in *; [| done].
    injection Hi as <-. rewrite app_nil_r in Hf. done.
  - intros [= <- <-]. split; [done |].
    exists []. split; [by rewrite app_nil_r |]. done.
Qed.

(** Leaves first: [_api_call] is itself a [bind] and must not be opened. *)
Ltac fail_fast_steps :=
  repeat first
    [ apply fail_fast_api_call
    | apply fail_fast_lift
    | apply fail_fast_ret
    | apply fail_fast_bind; [| intros ?] ].

Lemma fail_fast_device_interfaces self device_id :
  fail_fast server (_device_interfaces py_repr server self device_id).
Proof. unfold _device_interfaces. fail_fast_steps. Qed.

Lemma fail_fast_interface_ip self interface_id :
  fail_fast server (_interface_ip py_repr server self interface_id).
Proof. unfold _interface_ip. fail_fast_steps. Qed.

Lemma fail_fast_device_primary_ip self device_id :
  fail_fast server (_device_primary_ip py_repr server self device_id).
Proof. unfold _device_primary_ip. fail_fast_steps. Qed.

Lemma fail_fast_device_ssh_port self device_id :
  fail_fast server (_device_ssh_port py_repr server self device_id).
Proof. unfold _device_ssh_port. fail_fast_steps. Qed.

Lemma fail_fast_process_interface_vlans self device_id :
  fail_fast server (_process_interface_vlans py_repr server self device_id).
Proof.
  unfold _process_interface_vlans.
  apply fail_fast_bind; [apply fail_fast_device_interfaces |].
  intros ?. apply fail_fast_lift.
Qed.

Lemma fail_fast_interface_hash self interface :
  fail_fast server (interface_hash py_repr server self interface).
Proof.
  unfold interface_hash.
  do 2 (apply fail_fast_bind; [apply fail_fast_lift | intros ?]).
  apply fail_fast_bind; [apply fail_fast_interface_ip | intros ?].
  apply fail_fast_ret.
Qed.

Lemma fail_fast_device_hash self device :
  fail_fast server (device_hash py_repr server self device).
Proof.
  unfold device_hash.
  apply fail_fast_bind; [apply fail_fast_lift | intros ?].
  apply fail_fast_bind; [apply fail_fast_device_interfaces | intros ?].
  apply fail_fast_bind; [apply fail_fast_process_interface_vlans | intros ?].
  apply fail_fast_bind; [apply fail_fast_device_primary_ip | intros ?].
  apply fail_fast_bind; [apply fail_fast_device_ssh_port | intros ?].
  apply fail_fast_bind; [apply fail_fast_lift | intros ?].
  apply fail_fast_bind;
    [apply fail_fast_mapM; intros ?; apply fail_fast_interface_hash | intros ?].
  apply fail_fast_bind; [apply fail_fast_lift | intros ?].
  apply fail_fast_ret.
Qed.

Lemma fail_fast_process_devices self :
  fail_fast server (_process_devices py_repr server self).
Proof.
  unfold _process_devices, _device_list.
  apply fail_fast_bind; [apply fail_fast_api_call | intros ?].
  apply fail_fast_bind; [apply fail_fast_lift | intros ?].
  apply fail_fast_mapM. intros ?. apply fail_fast_device_hash.
Qed.

(** The part of [__init__] before [print]: building [self.inventory]. *)
Lemma NetboxInventory_run args netbox_server netbox_protocol netbox_port
    netbox_token :
  exists inventory : M json,
    fail_fast server inventory /\
    (args_list args = false -> inventory = ret _empty_inventory) /\
    NetboxInventory py_repr server args netbox_server netbox_protocol
      netbox_port netbox_token = bind inventory print.
Proof.
  unfold NetboxInventory. eexists. split; [| split; [| reflexivity]].
  - destruct (args_list args).
    + apply fail_fast_bind; [apply fail_fast_process_devices | intros ?].
      apply fail_fast_lift.
    + destruct (args_host args) as [[| ? ?] |]; apply fail_fast_ret.
  - intros ->. by destruct (args_host args) as [[| ? ?] |].
Qed.

(** Whatever goes wrong with a request (no connection, an error status,
    a body that is not JSON), that request is the last one sent, its
    exception is the outcome of the run, and nothing is printed. *)
Lemma failed_fetch_aborts_run args netbox_server netbox_protocol netbox_port
    netbox_token r w' i url e :
  NetboxInventory py_repr server args netbox_server netbox_protocol
    netbox_port netbox_token start = (r, w') ->
  calls w' !! i = Some url ->
  fetch server (take i (calls w')) url = Raise e ->
  r = Raise e /\ S i = length (calls w') /\ stdout w' = [].
Proof.
  destruct (NetboxInventory_run args netbox_server netbox_protocol
              netbox_port netbox_token) as (inventory & Hff & _ & ->).
  unfold bind. destruct (inventory start) as [[doc | e'] w1] eqn:Einv;
    destruct (Hff _ _ _ Einv) as (Hout & ext & Hcalls & Hans);
    simpl in Hout, Hcalls.
  - unfold print. intros [= <- <-] Hi Hf. simpl in Hi, Hf.
    rewrite Hcalls in Hi, Hf.
    destruct (Hans i url e Hi Hf) as [_ ?]. discriminate.
  - intros [= <- <-] Hi Hf. rewrite Hcalls in Hi, Hf.
    destruct (Hans i url e Hi Hf) as [Hlast [= ->]].
    rewrite Hcalls. done.
Qed.

End Run.

(** ** The modes of the program *)

(** C8.  Without [--list], whether [--host] is given (with any name) or
    not, the program prints exactly [{"_meta": {"hostvars": {}}}] and
    sends no request, whatever the server and the connection settings. *)
Theorem host_mode_prints_empty_inventory
    (py_repr : json -> string)
    (server : list string -> string -> option Response)
    (host : option string) (netbox_server netbox_protocol : string)
    (netbox_port : Z) (netbox_token : option string) :
  let args := {| args_list := false; args_host := host |} in
  let printed :=
    {| calls := [];
       stdout := [dict_lit [("_meta", dict_lit [("hostvars", dict_lit [])])]] |} in
  NetboxInventory py_repr server args netbox_server netbox_protocol
    netbox_port netbox_token start = (Ok tt, printed) /\
  main py_repr server args start = (Ok tt, printed).
Proof.
  unfold main, NetboxInventory; simpl.
  destruct host as [[| c h] |]; split; reflexivity.
Qed.



(** ** What the methods return *)

Section Methods.

Variable py_repr : json -> string.
Variable server : list string -> string -> option Response.
Variable self : Self.

(** A request followed by pure work on its answer. *)
Lemma api_then_lift {A} api_endpoint (f : json -> result A) w :
  bind (_api_call server self api_endpoint) (fun j => lift (f j)) w =
  match headers self with
  | Some _ =>
      (let! j := fetch server (calls w) (api_url self api_endpoint) in f j,
       {| calls := calls w ++ [api_url self api_endpoint];
          stdout := stdout w |})
  | None => (Raise AttributeError, w)
  end.
Proof.
  unfold bind. rewrite api_call_run.
  destruct (headers self); [| done].
  destruct (fetch _ _ _); done.
Qed.

Lemma device_interfaces_Ok device_id w j w' :
  _device_interfaces py_repr server self device_id w = (Ok j, w') ->
  exists answer,
    fetch server (calls w) (interfaces_url py_repr self device_id) = Ok answer /\
    getitem answer "results" = Ok j.
Proof.
  unfold _device_interfaces. rewrite api_then_lift.
  destruct (headers self); [| discriminate].
  intros [= H _]. apply rbind_Ok in H as (answer & ? & ?). eauto.
Qed.

Lemma process_interface_vlans_Ok device_id w vlans w' :
  _process_interface_vlans py_repr server self device_id w = (Ok vlans, w') ->
  exists answer results interfaces,
    fetch server (calls w) (interfaces_url py_repr self device_id) = Ok answer /\
    getitem answer "results" = Ok results /\
    py_iter results = Ok interfaces /\
    rmap vlan_map interfaces = Ok vlans.
Proof.
  unfold _process_interface_vlans. intros H.
  apply bind_Ok in H as (results & w1 & Hres & H).
  apply device_interfaces_Ok in Hres as (answer & ? & ?).
  apply lift_Ok in H as [H _].
  apply rbind_Ok in H as (interfaces & ? & ?).
  exists answer, results, interfaces. done.
Qed.


Lemma interface_hash_Ok interface w entry w' :
  interface_hash py_repr server self interface w = (Ok entry, w') ->
  exists name id addresses,
    getitem interface "name" = Ok name /\
    getitem interface "id" = Ok id /\
    entry = dict_lit [("interface_name", name);
                      ("interface_id", id);
                      ("ip_address", addresses)].
Proof.
  unfold interface_hash. intros H.
  apply bind_Ok in H as (name & w1 & Hname & H). apply lift_Ok in Hname as [? ->].
  apply bind_Ok in H as (id & w2 & Hid & H). apply lift_Ok in Hid as [? ->].
  apply bind_Ok in H as (addresses & w3 & _ & H). apply ret_Ok in H as [-> _].
  by exists name, id, addresses.
Qed.

Lemma vlan_map_Ok interface entry :
  vlan_map interface = Ok entry ->
  exists name id tagged untagged tagged_vlan_list untagged_vid,
    getitem interface "name" = Ok name /\
    getitem interface "id" = Ok id /\
    getitem interface "tagged_vlans" = Ok tagged /\
    getitem interface "untagged_vlan" = Ok untagged /\
    (truthy tagged = false -> tagged_vlan_list = []) /\
    (truthy untagged = false -> untagged_vid = JNull) /\
    entry = dict_lit [("interface", name);
                      ("int_id", id);
                      ("untagged_vlan", untagged_vid);
                      ("tagged_vlans", JList tagged_vlan_list)].
Proof.
  unfold vlan_map. intros H.
  apply rbind_Ok in H as (tagged & Htagged & H).
  apply rbind_Ok in H as (tagged_vlan_list & Hlist & H).
  apply rbind_Ok in H as (untagged & Huntagged & H).
  apply rbind_Ok in H as (untagged_vid & Hvid & H).
  apply rbind_Ok in H as (name & Hname & H).
  apply rbind_Ok in H as (id & Hid & [= <-]).
  exists name, id, tagged, untagged, tagged_vlan_list, untagged_vid.
  repeat split; try done.
  - intros Hfalse. rewrite Hfalse in Hlist. by injection Hlist.
  - intros Hfalse. rewrite Hfalse in Hvid. by injection Hvid.
Qed.

(** The record [_process_devices] builds for one device. *)
Lemma device_hash_Ok device w record w' :
  device_hash py_repr server self device w = (Ok record, w') ->
  exists device_id name interfaces vlans device_ip device_ssh_port items
         int_list w1 w2 w3 w4,
    getitem device "id" = Ok device_id /\
    getitem device "name" = Ok name /\
    _device_interfaces py_repr server self device_id w = (Ok interfaces, w1) /\
    _process_interface_vlans py_repr server self device_id w1 = (Ok vlans, w2) /\
    _device_primary_ip py_repr server self device_id w2 = (Ok device_ip, w3) /\
    _device_ssh_port py_repr server self device_id w3 = (Ok device_ssh_port, w4) /\
    py_iter interfaces = Ok items /\
    mapM (interface_hash py_repr server self) items w4 = (Ok int_list, w') /\
    record = dict_lit [("id", device_id);
                       ("ansible_ssh_host", device_ip);
                       ("ansible_ssh_port", device_ssh_port);
                       ("name", name);
                       ("interfaces", JList int_list);
                       ("vlans", JList vlans)].
Proof.
  unfold device_hash. intros H.
  apply bind_Ok in H as (device_id & w0 & Hid & H). apply lift_Ok in Hid as [? ->].
  apply bind_Ok in H as (interfaces & w1 & Hifs & H).
  apply bind_Ok in H as (vlans & w2 & Hvlans & H).
  apply bind_Ok in H as (device_ip & w3 & Hip & H).
  apply bind_Ok in H as (device_ssh_port & w4 & Hport & H).
  apply bind_Ok in H as (items & w5 & Hitems & H). apply lift_Ok in Hitems as [? ->].
  apply bind_Ok in H as (int_list & w6 & Hints & H).
  apply bind_Ok in H as (name & w7 & Hname & H). apply lift_Ok in Hname as [? ->].
  apply ret_Ok in H as [-> ->].
  exists device_id, name, interfaces, vlans, device_ip, device_ssh_port, items,
    int_list, w1, w2, w3, w4.
  done.
Qed.

Lemma process_devices_Ok w records w' :
  _process_devices py_repr server self w = (Ok records, w') ->
  exists answer results devices,
    fetch server (calls w) (api_url self "dcim/devices") = Ok answer /\
    getitem answer "results" = Ok results /\
    py_iter results = Ok devices /\
    Forall2 (fun device record =>
               exists w1 w2,
                 device_hash py_repr server self device w1 = (Ok record, w2))
            devices records.
Proof.
  unfold _process_devices, _device_list. intros H.
  apply bind_Ok in H as (answer & w1 & Hanswer & H).
  apply api_call_Ok in Hanswer.
  apply bind_Ok in H as (devices & w2 & Hdevices & H).
  apply lift_Ok in Hdevices as [Hdevices ->].
  apply rbind_Ok in Hdevices as (results & ? & ?).
  apply mapM_Ok in H.
  exists answer, results, devices. done.
Qed.

End Methods.

(** ** The primary IP *)

Lemma str_split_first sep host rest :
  ~ In sep (list_ascii_of_string host) ->
  str_split sep (host +:+ String sep rest) = host :: str_split sep rest.
Proof.
  induction host as [| c host IH]; simpl; intros Hnot.
  - by rewrite Ascii.eqb_refl.
  - destruct (Ascii.eqb c sep) eqn:E.
    + apply Ascii.eqb_eq in E. exfalso. apply Hnot. by left.
    + rewrite IH; [done |]. intros Hin. apply Hnot. by right.
Qed.

Lemma getitem_Ok_truthy v k x : getitem v k = Ok x -> truthy v = true.
Proof. destruct v as [| | | | | [| kv d]]; try done. Qed.

(** C6.  When the address of a device's primary IP has a netmask suffix,
    that is, reads [host/mask] with no ['/'] in [host], the management
    address [_device_primary_ip] returns is [host]: the text before the
    first ['/'] (the first piece of the split on ['/']). *)
Theorem primary_ip_netmask_stripped
    (py_repr : json -> string)
    (server : list string -> string -> option Response)
    (self : Self) (device_id : json) (w : world)
    (detail primary_ip : json) (host mask : string) :
  headers self <> None ->
  fetch server (calls w) (detail_url py_repr self device_id) = Ok detail ->
  getitem detail "primary_ip" = Ok primary_ip ->
  getitem primary_ip "address" = Ok (JStr (host +:+ "/" +:+ mask)) ->
  ~ In "/"%char (list_ascii_of_string host) ->
  index0 (str_split "/" (host +:+ "/" +:+ mask)) = Ok host /\
  fst (_device_primary_ip py_repr server self device_id w) = Ok (JStr host).
Proof.
  intros Hheaders Hdetail Hip Haddress Hhost.
  assert (Hsplit : str_split "/" (host +:+ "/" +:+ mask)
                   = host :: str_split "/" mask)
    by (by apply str_split_first).
  split; [by rewrite Hsplit |].
  unfold _device_primary_ip. rewrite api_then_lift.
  destruct (headers self); [| done]. simpl.
  unfold detail_url in Hdetail. rewrite Hdetail. simpl.
  rewrite Hip. simpl. rewrite (getitem_Ok_truthy _ _ _ Haddress), Haddress.
  simpl. by rewrite Hsplit.
Qed.

Lemma primary_ip_netmask_stripped_witness :
  index0 (str_split "/" "10.0.0.1/24") = Ok "10.0.0.1" /\
  fst (_device_primary_ip no_repr
         (fun _ _ => Some (ok200 (dict_lit
            [("primary_ip", dict_lit [("address", JStr "10.0.0.1/24")])])))
         main_self (JNum 1) start) = Ok (JStr "10.0.0.1").
Proof.
  apply (primary_ip_netmask_stripped no_repr _ main_self (JNum 1) start
           (dict_lit [("primary_ip", dict_lit [("address", JStr "10.0.0.1/24")])])
           (dict_lit [("address", JStr "10.0.0.1/24")])
           "10.0.0.1" "24").
  - discriminate.
  - reflexivity.
  - reflexivity.
  - reflexivity.
  - simpl. intros H. repeat (destruct H as [H | H]; [discriminate |]). exact H.
Defined.

(** ** Optional fields that are not set *)

(** C4 (as amended).  When an optional field is present in the answer but
    not set, nothing raises and the output carries the empty value:
    a [primary_ip] that is null (or any false value) gives a null primary
    IP; a [custom_fields] that is null or empty, or whose [ASN] is null,
    gives a null SSH port; an interface whose [tagged_vlans] is null or
    empty and whose [untagged_vlan] is null gives an entry with
    [tagged_vlans = []] and [untagged_vlan = null]. *)
Theorem unset_optional_fields_give_null
    (py_repr : json -> string)
    (server : list string -> string -> option Response)
    (self : Self) (device_id : json) (w : world) (detail : json) :
  headers self <> None ->
  fetch server (calls w) (detail_url py_repr self device_id) = Ok detail ->
  (forall primary_ip,
     getitem detail "primary_ip" = Ok primary_ip ->
     truthy primary_ip = false ->
     fst (_device_primary_ip py_repr server self device_id w) = Ok JNull) /\
  (forall custom_fields,
     getitem detail "custom_fields" = Ok custom_fields ->
     truthy custom_fields = false \/ getitem custom_fields "ASN" = Ok JNull ->
     fst (_device_ssh_port py_repr server self device_id w) = Ok JNull) /\
  (forall interface name id tagged untagged,
     getitem interface "name" = Ok name ->
     getitem interface "id" = Ok id ->
     getitem interface "tagged_vlans" = Ok tagged ->
     truthy tagged = false ->
     getitem interface "untagged_vlan" = Ok untagged ->
     truthy untagged = false ->
     vlan_map interface =
       Ok (dict_lit [("interface", name);
                     ("int_id", id);
                     ("untagged_vlan", JNull);
                     ("tagged_vlans", JList [])])).
Proof.
  intros Hheaders Hdetail. unfold detail_url in Hdetail.
  split; [| split].
  - intros primary_ip Hip Hfalse.
    unfold _device_primary_ip. rewrite api_then_lift.
    destruct (headers self); [| done]. simpl.
    rewrite Hdetail. simpl. rewrite Hip. simpl. by rewrite Hfalse.
  - intros custom_fields Hcf Hunset.
    unfold _device_ssh_port. rewrite api_then_lift.
    destruct (headers self); [| done]. simpl.
    rewrite Hdetail. simpl. rewrite Hcf. simpl.
    destruct Hunset as [Hfalse | HASN].
    + by rewrite Hfalse.
    + by rewrite (getitem_Ok_truthy _ _ _ HASN).
  - intros interface name id tagged untagged Hname Hid Htagged Ht Huntagged Hu.
    unfold vlan_map. rewrite Htagged. simpl. rewrite Ht. simpl.
    rewrite Huntagged. simpl. rewrite Hu. simpl.
    rewrite Hname. simpl. by rewrite Hid.
Qed.

Lemma unset_optional_fields_give_null_witness :
  fst (_device_primary_ip no_repr bare_server main_self (JNum 1) start)
    = Ok JNull /\
  fst (_device_ssh_port no_repr bare_server main_self (JNum 1) start)
    = Ok JNull /\
  vlan_map bare_eth0 =
    Ok (dict_lit [("interface", JStr "eth0");
                  ("int_id", JNum 10);
                  ("untagged_vlan", JNull);
                  ("tagged_vlans", JList [])]).
Proof.
  destruct (unset_optional_fields_give_null no_repr bare_server main_self
              (JNum 1) start bare_detail) as (Hip & Hport & Hvlans).
  - discriminate.
  - reflexivity.
  - split; [| split].
    + apply (Hip JNull); reflexivity.
    + apply (Hport (dict_lit [])); [reflexivity | left; reflexivity].
    + apply (Hvlans bare_eth0 (JStr "eth0") (JNum 10) (JList []) JNull);
        reflexivity.
Defined.

(** C4, as stated, fails: a detail record with no [custom_fields] key at
    all is absent custom-attribute data too, and there [_device_ssh_port]
    raises [KeyError]; the run ends with it and prints nothing. *)
Lemma keyless_detail_raises :
  fetch keyless_server [] (detail_url no_repr main_self (JNum 1))
    = Ok (dict_lit [("primary_ip", JNull)]) /\
  fst (_device_ssh_port no_repr keyless_server main_self (JNum 1) start)
    = Raise (KeyError (KStr "custom_fields")) /\
  fst (main no_repr keyless_server list_mode start)
    = Raise (KeyError (KStr "custom_fields")) /\
  stdout (snd (main no_repr keyless_server list_mode start)) = [].
Proof. repeat split; reflexivity. Qed.

(** The other way [KeyError] comes up: custom fields are defined, but none
    of them is [ASN]. *)
Example custom_fields_without_ASN :
  fst (_device_ssh_port no_repr
         (fun _ _ => Some (ok200 (dict_lit
            [("primary_ip", JNull);
             ("custom_fields", dict_lit [("rack", JStr "r1")])])))
         main_self (JNum 1) start)
  = Raise (KeyError (KStr "ASN")).
Proof. reflexivity. Qed.

(** ** Interfaces without VLANs *)

Lemma no_vlan_data_falsy interface :
  no_vlan_data interface ->
  exists tagged,
    getitem interface "tagged_vlans" = Ok tagged /\ truthy tagged = false /\
    getitem interface "untagged_vlan" = Ok JNull.
Proof. intros [[H | H] Hu]; eauto. Qed.

Lemma vlan_map_no_vlan_data interface entry :
  no_vlan_data interface ->
  vlan_map interface = Ok entry ->
  getitem entry "tagged_vlans" = Ok (JList []) /\
  getitem entry "untagged_vlan" = Ok JNull.
Proof.
  intros Hno Hentry. apply no_vlan_data_falsy in Hno as (tagged & Ht & Hf & Hu).
  apply vlan_map_Ok in Hentry
    as (name & id & tagged' & untagged & tl & uv & _ & _ & Ht' & Hu' & Htl & Huv & ->).
  rewrite Ht in Ht'. injection Ht' as <-.
  rewrite Hu in Hu'. injection Hu' as <-.
  rewrite (Htl Hf), (Huv eq_refl). done.
Qed.

(** C7.  Take a device all of whose interfaces, whenever they are listed,
    come without VLAN data ([tagged_vlans] null or empty, [untagged_vlan]
    null).  In the record [_process_devices] builds for it, every entry of
    [vlans] has [tagged_vlans = []] and [untagged_vlan = null], and that
    same sequence is what the formatter puts under [vlans] in the device's
    host variables. *)
Theorem no_vlan_data_gives_empty_vlans
    (py_repr : json -> string)
    (server : list string -> string -> option Response)
    (self : Self) (device device_id record : json) (w w' : world) :
  device_hash py_repr server self device w = (Ok record, w') ->
  getitem device "id" = Ok device_id ->
  (forall history answer results interfaces,
     fetch server history (interfaces_url py_repr self device_id) = Ok answer ->
     getitem answer "results" = Ok results ->
     py_iter results = Ok interfaces ->
     Forall no_vlan_data interfaces) ->
  exists vlans,
    getitem record "vlans" = Ok (JList vlans) /\
    Forall (fun entry =>
              getitem entry "tagged_vlans" = Ok (JList []) /\
              getitem entry "untagged_vlan" = Ok JNull) vlans /\
    forall name key vars,
      hostvars_item record = Ok (name, key, vars) ->
      getitem vars "vlans" = Ok (JList vlans).
Proof.
  intros Hrecord Hid Hno.
  apply device_hash_Ok in Hrecord
    as (id' & name & interfaces & vlans & ip & port & items & int_list
        & w1 & w2 & w3 & w4 & Hid' & Hname & _ & Hvlans & _ & _ & _ & _ & ->).
  rewrite Hid in Hid'. injection Hid' as <-.
  apply process_interface_vlans_Ok in Hvlans
    as (answer & results & listed & Hanswer & Hresults & Hlisted & Hmap).
  exists vlans. split; [reflexivity |]. split.
  - specialize (Hno _ _ _ _ Hanswer Hresults Hlisted).
    apply rmap_Ok in Hmap. clear -Hno Hmap.
    induction Hmap as [| interface entry listed vlans Hentry _ IH].
    + constructor.
    + inversion Hno as [| ? ? Hfirst Hrest]; subst.
      constructor; [by eapply vlan_map_no_vlan_data | by apply IH].
  - intros name' key vars Hitem.
    apply hostvars_item_Ok in Hitem
      as (_ & _ & host & port' & ifs & vl & _ & _ & _ & Hvl & ->).
    injection Hvl as <-. reflexivity.
Qed.

Lemma no_vlan_data_gives_empty_vlans_witness :
  exists vlans,
    getitem (dict_lit [("id", JNum 1);
                       ("ansible_ssh_host", JNull);
                       ("ansible_ssh_port", JNull);
                       ("name", JStr "sw1");
                       ("interfaces", JList [dict_lit
                          [("interface_name", JStr "eth0");
                           ("interface_id", JNum 10);
                           ("ip_address", JList [])]]);
                       ("vlans", JList [dict_lit
                          [("interface", JStr "eth0");
                           ("int_id", JNum 10);
                           ("untagged_vlan", JNull);
                           ("tagged_vlans", JList [])]])]) "vlans"
      = Ok (JList vlans) /\
    Forall (fun entry =>
              getitem entry "tagged_vlans" = Ok (JList []) /\
              getitem entry "untagged_vlan" = Ok JNull) vlans.
Proof.
  destruct (no_vlan_data_gives_empty_vlans no_repr bare_server main_self
              (dict_lit [("id", JNum 1); ("name", JStr "sw1")]) (JNum 1)
              _ start _ eq_refl eq_refl) as (vlans & Hvlans & Hall & _).
  - intros history answer results interfaces Hanswer Hresults Hlisted.
    injection Hanswer as <-. injection Hresults as <-.
    injection Hlisted as <-.
    constructor; [| constructor].
    split; [right; reflexivity | reflexivity].
  - exists vlans. split; [exact Hvlans | exact Hall].
Defined.

(** ** A whole run in list mode *)

Lemma list_run_Ok py_repr server args netbox_server netbox_protocol
    netbox_port netbox_token w' :
  args_list args = true ->
  NetboxInventory py_repr server args netbox_server netbox_protocol
    netbox_port netbox_token start = (Ok tt, w') ->
  exists records doc w1,
    _process_devices py_repr server
      (init_self netbox_server netbox_protocol netbox_port netbox_token) start
      = (Ok records, w1) /\
    create_inventory_output records = Ok doc /\
    stdout w' = [doc].
Proof.
  intros Hlist. unfold NetboxInventory. rewrite Hlist. intros H.
  apply bind_Ok in H as (doc & w2 & Hdoc & Hprint).
  apply bind_Ok in Hdoc as (records & w1 & Hrecords & Hdoc).
  apply lift_Ok in Hdoc as [Hdoc ->].
  exists records, doc, w1. repeat split; try done.
  destruct (fail_fast_process_devices _ _ _ _ _ _ Hrecords) as [Hout _].
  unfold print in Hprint. injection Hprint as <-. simpl. by rewrite Hout.
Qed.

Lemma dict_set_entries d k0 v0 k v :
  (k, v) ∈ dict_set d k0 v0 -> (k, v) ∈ d \/ v = v0.
Proof.
  induction d as [| [k1 v1] d IH]; simpl.
  - intros H. apply list_elem_of_singleton in H. injection H as _ ->. by right.
  - destruct (key_eqb k1 k0).
    + intros H. apply elem_of_cons in H as [[= _ ->] | H]; [by right |].
      left. by apply elem_of_cons; right.
    + intros H. apply elem_of_cons in H as [-> | H].
      * left. by apply elem_of_cons; left.
      * destruct (IH H) as [? | ?]; [| by right].
        left. by apply elem_of_cons; right.
Qed.

(** Every entry of the dictionary the loop fills was stored for one of the
    items. *)
Lemma fold_store_entries items hv k v :
  (k, v) ∈ fold_left store items hv ->
  (k, v) ∈ hv \/ exists item, item ∈ items /\ v = snd item.
Proof.
  revert hv. induction items as [| item items IH]; intros hv; simpl.
  - by left.
  - intros H. destruct (IH _ H) as [Hin | (item' & Hin & ->)].
    + apply dict_set_entries in Hin as [? | ->]; [by left |].
      right. exists item. split; [by apply elem_of_cons; left | done].
    + right. exists item'. split; [by apply elem_of_cons; right | done].
Qed.

Lemma Forall2_common {A B C} (P : A -> B -> Prop) (Q : A -> C -> Prop)
    (R : B -> C -> Prop) l bs cs :
  (forall a b c, P a b -> Q a c -> R b c) ->
  Forall2 P l bs -> Forall2 Q l cs -> Forall2 R bs cs.
Proof.
  intros HR HP. revert cs. induction HP as [| a b l bs Hab _ IH]; intros cs HQ.
  - inversion HQ. constructor.
  - inversion HQ as [| ? c ? cs' Hac Hcs]; subst.
    constructor; [by eapply HR | by apply IH].
Qed.

Section Listing.

Variable py_repr : json -> string.
Variable server : list string -> string -> option Response.
Variable self : Self.

(** The interface listing of a device does not depend on when it is
    requested. *)
Hypothesis listing_deterministic :
  forall device_id history1 history2,
    server history1 (interfaces_url py_repr self device_id) =
    server history2 (interfaces_url py_repr self device_id).

Lemma device_hash_aligned device w record w' :
  device_hash py_repr server self device w = (Ok record, w') ->
  exists interfaces vlans,
    getitem record "interfaces" = Ok (JList interfaces) /\
    getitem record "vlans" = Ok (JList vlans) /\
    Forall2 same_interface interfaces vlans.
Proof.
  intros Hrecord.
  apply device_hash_Ok in Hrecord
    as (id & name & listing & vlans & ip & port & items & int_list
        & w1 & w2 & w3 & w4 & _ & _ & Hlisting & Hvlans & _ & _ & Hitems
        & Hints & ->).
  apply device_interfaces_Ok in Hlisting as (answer & Hanswer & Hresults).
  apply process_interface_vlans_Ok in Hvlans
    as (answer' & results' & listed & Hanswer' & Hresults' & Hlisted & Hmap).
  unfold fetch in Hanswer, Hanswer'.
  rewrite (listing_deterministic id (calls w1) (calls w)) in Hanswer'.
  rewrite Hanswer in Hanswer'. injection Hanswer' as <-.
  rewrite Hresults in Hresults'. injection Hresults' as <-.
  rewrite Hitems in Hlisted. injection Hlisted as <-.
  exists int_list, vlans. split; [reflexivity |]. split; [reflexivity |].
  apply mapM_Ok in Hints. apply rmap_Ok in Hmap.
  refine (Forall2_common _ _ _ _ _ _ _ Hints Hmap).
  intros interface entry vlan_entry (wa & wb & Hentry) Hvlan.
  apply interface_hash_Ok in Hentry as (nm & i & addresses & Hnm & Hi & ->).
  apply vlan_map_Ok in Hvlan
    as (nm' & i' & ? & ? & ? & ? & Hnm' & Hi' & _ & _ & _ & _ & ->).
  rewrite Hnm in Hnm'. injection Hnm' as <-.
  rewrite Hi in Hi'. injection Hi' as <-.
  exists i, nm. repeat split; reflexivity.
Qed.

End Listing.

(** Where the host variables of the printed document come from: each was
    written by the formatter for a record that [device_hash] built. *)
Lemma hostvars_origin py_repr server self records doc hv w w1 key vars :
  _process_devices py_repr server self w = (Ok records, w1) ->
  create_inventory_output records = Ok doc ->
  meta_hostvars doc = Ok (JDict hv) ->
  (key, vars) ∈ hv ->
  exists device record wa wb name key',
    device_hash py_repr server self device wa = (Ok record, wb) /\
    hostvars_item record = Ok (name, key', vars).
Proof.
  intros Hrecords Hdoc Hhv Hin.
  apply process_devices_Ok in Hrecords as (_ & _ & devices & _ & _ & _ & Hall).
  apply create_inventory_output_items in Hdoc as (items & Hitems & ->).
  rewrite meta_hostvars_document in Hhv. injection Hhv as <-.
  apply fold_store_entries in Hin as [Hin | (item & Hin & ->)].
  { by apply elem_of_nil in Hin. }
  apply list_elem_of_lookup in Hin as [j Hj].
  apply rmap_Ok in Hitems.
  destruct (Forall2_lookup_r _ _ _ _ _ Hitems Hj) as (record & Hrecord & Hitem).
  destruct (Forall2_lookup_r _ _ _ _ _ Hall Hrecord)
    as (device & _ & wa & wb & Hdevice).
  destruct item as [[name key'] vars].
  by exists device, record, wa, wb, name, key'.
Qed.

(** C10.  Assume the interface listing of a device is a function of the
    device id alone (the same answer whenever it is requested).  Then in
    the document a list-mode run prints, under every host the sequences
    [interfaces] and [vlans] have the same length, and at every index the
    entry of [interfaces] and the entry of [vlans] carry the same
    interface id ([interface_id], [int_id]) and the same interface name
    ([interface_name], [interface]). *)
Theorem interfaces_and_vlans_aligned
    (py_repr : json -> string)
    (server : list string -> string -> option Response)
    (args : Args) (netbox_server netbox_protocol : string)
    (netbox_port : Z) (netbox_token : option string) (w' : world) :
  args_list args = true ->
  (forall device_id history1 history2,
     server history1
       (interfaces_url py_repr
          (init_self netbox_server netbox_protocol netbox_port netbox_token)
          device_id) =
     server history2
       (interfaces_url py_repr
          (init_self netbox_server netbox_protocol netbox_port netbox_token)
          device_id)) ->
  NetboxInventory py_repr server args netbox_server netbox_protocol
    netbox_port netbox_token start = (Ok tt, w') ->
  exists doc hv,
    stdout w' = [doc] /\
    meta_hostvars doc = Ok (JDict hv) /\
    forall key vars,
      (key, vars) ∈ hv ->
      exists interfaces vlans,
        getitem vars "interfaces" = Ok (JList interfaces) /\
        getitem vars "vlans" = Ok (JList vlans) /\
        length interfaces = length vlans /\
        forall i entry vlan_entry,
          interfaces !! i = Some entry ->
          vlans !! i = Some vlan_entry ->
          same_interface entry vlan_entry.
Proof.
  intros Hlist Hdet Hrun.
  apply list_run_Ok in Hrun as (records & doc & w1 & Hrecords & Hdoc & Hout);
    [| done].
  pose proof Hdoc as Hdoc'.
  apply create_inventory_output_items in Hdoc' as (items & _ & Heq).
  exists doc, (fold_left store items []).
  split; [done |]. split; [by rewrite Heq |].
  intros key vars Hin.
  destruct (hostvars_origin _ _ _ _ _ _ _ _ key vars Hrecords Hdoc
              ltac:(by rewrite Heq) Hin)
    as (device & record & wa & wb & name & key' & Hdevice & Hitem).
  destruct (device_hash_aligned _ _ _ Hdet _ _ _ _ Hdevice)
    as (interfaces & vlans & Hifs & Hvlans & Haligned).
  apply hostvars_item_Ok in Hitem
    as (_ & _ & host & port & ifs & vl & _ & _ & Hifs' & Hvlans' & ->).
  rewrite Hifs in Hifs'. injection Hifs' as <-.
  rewrite Hvlans in Hvlans'. injection Hvlans' as <-.
  exists interfaces, vlans.
  split; [reflexivity |]. split; [reflexivity |].
  split; [by eapply Forall2_length |].
  intros i entry vlan_entry Hentry Hvlan.
  by eapply Forall2_lookup_lr.
Qed.

Lemma interfaces_and_vlans_aligned_witness :
  exists doc hv,
    stdout (snd (main no_repr sw1_server list_mode start)) = [doc] /\
    meta_hostvars doc = Ok (JDict hv) /\
    forall key vars,
      (key, vars) ∈ hv ->
      exists interfaces vlans,
        getitem vars "interfaces" = Ok (JList interfaces) /\
        getitem vars "vlans" = Ok (JList vlans) /\
        length interfaces = length vlans /\
        forall i entry vlan_entry,
          interfaces !! i = Some entry ->
          vlans !! i = Some vlan_entry ->
          same_interface entry vlan_entry.
Proof.
  apply (interfaces_and_vlans_aligned no_repr sw1_server list_mode
           "netbox01.lab" "http" 80
           (Some "0123456789abcdef0123456789abcdefghijh231")).
  - reflexivity.
  - intros device_id history1 history2. reflexivity.
  - reflexivity.
Defined.

(** ** Devices without a primary IP *)






(** ** End to end *)

(** C1.  Take any API that answers the four endpoints of the one switch
    sw1 as mocked: the device list with [{id:1, name:"sw1"}], the
    interfaces of device 1 with eth0 (tagged VLAN 100, untagged VLAN 1),
    the addresses of interface 10 with 192.0.2.5/24, and the detail of
    device 1 with primary IP 192.0.2.1/24 and custom field ASN "22".  A run
    with [--list] sends six requests and prints exactly [sw1_document]. *)
Theorem sw1_end_to_end
    (py_repr : json -> string)
    (server : list string -> string -> option Response)
    (host : option string) :
  (forall history,
     fetch server history "http://netbox01.lab:80/api/dcim/devices" =
     Ok (dict_lit [("results",
           JList [dict_lit [("id", JNum 1); ("name", JStr "sw1")]])])) ->
  (forall history,
     fetch server history
       "http://netbox01.lab:80/api/dcim/interfaces/?device_id=1" =
     Ok (dict_lit [("results", JList [sw1_eth0])])) ->
  (forall history,
     fetch server history
       "http://netbox01.lab:80/api/ipam/ip-addresses/?interface_id=10" =
     Ok (dict_lit [("results",
           JList [dict_lit [("address", JStr "192.0.2.5/24")]])])) ->
  (forall history,
     fetch server history "http://netbox01.lab:80/api/dcim/devices/1" =
     Ok sw1_detail) ->
  main py_repr server {| args_list := true; args_host := host |} start =
  (Ok tt,
   {| calls := ["http://netbox01.lab:80/api/dcim/devices";
                "http://netbox01.lab:80/api/dcim/interfaces/?device_id=1";
                "http://netbox01.lab:80/api/dcim/interfaces/?device_id=1";
                "http://netbox01.lab:80/api/dcim/devices/1";
                "http://netbox01.lab:80/api/dcim/devices/1";
                "http://netbox01.lab:80/api/ipam/ip-addresses/?interface_id=10"];
      stdout := [sw1_document] |}).
Proof.
  intros Hdevices Hinterfaces Haddresses Hdetail.
  unfold main, NetboxInventory.
  (* run up to the next request, then take its answer *)
  repeat (cbv -[fetch _api_call];
          first [ rewrite api_call_run
                | rewrite Hdevices | rewrite Hinterfaces
                | rewrite Haddresses | rewrite Hdetail ]).
  reflexivity.
Qed.

Lemma sw1_end_to_end_witness :
  main no_repr sw1_server list_mode start =
  (Ok tt,
   {| calls := ["http://netbox01.lab:80/api/dcim/devices";
                "http://netbox01.lab:80/api/dcim/interfaces/?device_id=1";
                "http://netbox01.lab:80/api/dcim/interfaces/?device_id=1";
                "http://netbox01.lab:80/api/dcim/devices/1";
                "http://netbox01.lab:80/api/dcim/devices/1";
                "http://netbox01.lab:80/api/ipam/ip-addresses/?interface_id=10"];
      stdout := [sw1_document] |}).
Proof.
  apply (sw1_end_to_end no_repr sw1_server None);
    intros history; reflexivity.
Defined.

(** * Further properties of the code *)

(** ** Runs without a token *)

(** X1.  [__init__] sets [self.headers] only when a token is given.
    Without one (None or the empty string) a list-mode run fails in the
    first [_api_call] with [AttributeError], before any request is sent,
    and prints nothing. *)
Theorem no_token_no_request
    (py_repr : json -> string)
    (server : list string -> string -> option Response)
    (args : Args) (netbox_server netbox_protocol : string)
    (netbox_port : Z) (netbox_token : option string) :
  args_list args = true ->
  netbox_token = None \/ netbox_token = Some "" ->
  NetboxInventory py_repr server args netbox_server netbox_protocol
    netbox_port netbox_token start = (Raise AttributeError, start).
Proof.
  intros Hlist Htoken. unfold NetboxInventory. rewrite Hlist.
  unfold _process_devices, _device_list, bind. rewrite api_call_run.
  by destruct Htoken as [-> | ->].
Qed.

Lemma no_token_no_request_witness :
  NetboxInventory no_repr sw1_server list_mode "netbox01.lab" "http" 80 None
    start = (Raise AttributeError, start).
Proof.
  apply (no_token_no_request no_repr sw1_server list_mode);
    [reflexivity | left; reflexivity].
Defined.

(** ** What a run prints *)

(** X2.  Whatever the mode, the server and the way a run ends, it prints
    exactly one document when it succeeds and nothing at all when it
    raises: no exception leaves a partial document behind. *)
Theorem run_prints_once_or_never
    (py_repr : json -> string)
    (server : list string -> string -> option Response)
    (args : Args) (netbox_server netbox_protocol : string)
    (netbox_port : Z) (netbox_token : option string)
    (r : result unit) (w' : world) :
  NetboxInventory py_repr server args netbox_server netbox_protocol
    netbox_port netbox_token start = (r, w') ->
  (r = Ok tt /\ exists doc, stdout w' = [doc]) \/
  (exists e, r = Raise e /\ stdout w' = []).
Proof.
  destruct (NetboxInventory_run py_repr server args netbox_server
              netbox_protocol netbox_port netbox_token)
    as (inventory & Hff & _ & ->).
  unfold bind. destruct (inventory start) as [[doc | e] w1] eqn:Einv;
    destruct (Hff _ _ _ Einv) as (Hout & _); simpl in Hout.
  - unfold print. intros [= <- <-]. left. split; [done |].
    exists doc. simpl. by rewrite Hout.
  - intros [= <- <-]. right. by exists e.
Qed.

Lemma run_prints_once_or_never_witness :
  (Ok tt = Ok tt /\
   exists doc, stdout (snd (main no_repr sw1_server list_mode start)) = [doc]) \/
  (exists e, Ok tt = Raise e /\
             stdout (snd (main no_repr sw1_server list_mode start)) = []).
Proof.
  apply (run_prints_once_or_never no_repr sw1_server list_mode
           "netbox01.lab" "http" 80
           (Some "0123456789abcdef0123456789abcdefghijh231")).
  reflexivity.
Defined.

(** X3.  A request that gets no response at all, or whose body cannot be
    decoded as JSON, ends the run exactly as an error status does: it is
    the last request sent, [ConnectionError] (respectively
    [JSONDecodeError]) is the outcome, and nothing is printed. *)
Theorem unanswered_or_undecodable_aborts_run
    (py_repr : json -> string)
    (server : list string -> string -> option Response)
    (args : Args) (netbox_server netbox_protocol : string)
    (netbox_port : Z) (netbox_token : option string)
    (r : result unit) (w' : world) (i : nat) (url : string) :
  NetboxInventory py_repr server args netbox_server netbox_protocol
    netbox_port netbox_token start = (r, w') ->
  calls w' !! i = Some url ->
  (server (take i (calls w')) url = None ->
   r = Raise ConnectionError /\ S i = length (calls w') /\ stdout w' = []) /\
  (forall status,
     server (take i (calls w')) url =
       Some {| status_code := status; body := None |} ->
     error_status status = false ->
     r = Raise JSONDecodeError /\ S i = length (calls w') /\ stdout w' = []).
Proof.
  intros Hrun Hi. split.
  - intros Hnone.
    apply (failed_fetch_aborts_run py_repr server _ _ _ _ _ _ _ _ _ _ Hrun Hi).
    unfold fetch. by rewrite Hnone.
  - intros status Hsome Hstatus.
    apply (failed_fetch_aborts_run py_repr server _ _ _ _ _ _ _ _ _ _ Hrun Hi).
    unfold fetch, raise_for_status. rewrite Hsome. simpl. by rewrite Hstatus.
Qed.

Lemma unanswered_or_undecodable_aborts_run_witness :
  (fst (main no_repr (fun _ _ => None) list_mode start)
     = Raise ConnectionError /\
   1%nat = length (calls (snd (main no_repr (fun _ _ => None) list_mode start))) /\
   stdout (snd (main no_repr (fun _ _ => None) list_mode start)) = []) /\
  (fst (main no_repr (fun _ _ => Some {| status_code := 204; body := None |})
          list_mode start) = Raise JSONDecodeError /\
   1%nat = length (calls (snd (main no_repr
              (fun _ _ => Some {| status_code := 204; body := None |})
              list_mode start))) /\
   stdout (snd (main no_repr
              (fun _ _ => Some {| status_code := 204; body := None |})
              list_mode start)) = []).
Proof.
  split.
  - apply (proj1 (unanswered_or_undecodable_aborts_run no_repr (fun _ _ => None)
                    list_mode "netbox01.lab" "http" 80
                    (Some "0123456789abcdef0123456789abcdefghijh231")
                    _ _ 0%nat "http://netbox01.lab:80/api/dcim/devices"
                    eq_refl eq_refl)).
    reflexivity.
  - apply (proj2 (unanswered_or_undecodable_aborts_run no_repr
                    (fun _ _ => Some {| status_code := 204; body := None |})
                    list_mode "netbox01.lab" "http" 80
                    (Some "0123456789abcdef0123456789abcdefghijh231")
                    _ _ 0%nat "http://netbox01.lab:80/api/dcim/devices"
                    eq_refl eq_refl) 204); reflexivity.
Defined.

(** ** Which URLs a run requests *)

Lemma requests_only_lift P {A} (r : result A) : requests_only P (lift r).
Proof.
  intros w r' w' [= <- <-]. exists []. split; [by rewrite app_nil_r | constructor].
Qed.

Lemma requests_only_ret P {A} (a : A) : requests_only P (ret a).
Proof. apply (requests_only_lift P (Ok a)). Qed.

Lemma requests_only_bind P {A B} (m : M A) (k : A -> M B) :
  requests_only P m -> (forall a, requests_only P (k a)) ->
  requests_only P (bind m k).
Proof.
  intros Hm Hk w r w'. unfold bind.
  destruct (m w) as [[a | e] w1] eqn:Em;
    destruct (Hm _ _ _ Em) as (ext1 & Hc1 & Hall1).
  - intros Ek. destruct (Hk a _ _ _ Ek) as (ext2 & Hc2 & Hall2).
    exists (ext1 ++ ext2). split; [by rewrite Hc2, Hc1, app_assoc |].
    by apply Forall_app.
  - intros [= <- <-]. by exists ext1.
Qed.

Lemma requests_only_mapM P {A B} (f : A -> M B) l :
  (forall x, requests_only P (f x)) -> requests_only P (mapM f l).
Proof.
  intros Hf. induction l as [| x l IH]; simpl.
  - apply requests_only_ret.
  - apply requests_only_bind; [done |]. intros y.
    apply requests_only_bind; [done |]. intros ys. apply requests_only_ret.
Qed.

Lemma requests_only_api_call (P : string -> Prop) server self api_endpoint :
  P (api_url self api_endpoint) ->
  requests_only P (_api_call server self api_endpoint).
Proof.
  intros HP w r w'. rewrite api_call_run. destruct (headers self).
  - intros [= <- <-]. simpl. eexists. split; [done |]. by constructor.
  - intros [= <- <-]. exists []. split; [by rewrite app_nil_r | constructor].
Qed.

Lemma requests_only_process_devices py_repr server self :
  requests_only (inventory_url py_repr self)
    (_process_devices py_repr server self).
Proof.
  assert (Hifs : forall id,
            requests_only (inventory_url py_repr self)
              (_device_interfaces py_repr server self id)).
  { intros id. unfold _device_interfaces.
    apply requests_only_bind; [| intros ?; apply requests_only_lift].
    apply requests_only_api_call. right; left. by exists id. }
  assert (Hdetail : forall id (f : json -> result json),
            requests_only (inventory_url py_repr self)
              (bind (_api_call server self ("dcim/devices/" +:+ py_str py_repr id))
                    (fun j => lift (f j)))).
  { intros id f.
    apply requests_only_bind; [| intros ?; apply requests_only_lift].
    apply requests_only_api_call. right; right; left. by exists id. }
  unfold _process_devices, _device_list.
  apply requests_only_bind;
    [apply requests_only_api_call; by left | intros ?].
  apply requests_only_bind; [apply requests_only_lift | intros ?].
  apply requests_only_mapM. intros device. unfold device_hash.
  apply requests_only_bind; [apply requests_only_lift | intros id].
  apply requests_only_bind; [apply Hifs | intros ?].
  apply requests_only_bind.
  { unfold _process_interface_vlans.
    apply requests_only_bind; [apply Hifs | intros ?; apply requests_only_lift]. }
  intros ?.
  apply requests_only_bind; [apply Hdetail | intros ?].
  apply requests_only_bind; [apply Hdetail | intros ?].
  apply requests_only_bind; [apply requests_only_lift | intros ?].
  apply requests_only_bind.
  { apply requests_only_mapM. intros interface. unfold interface_hash.
    apply requests_only_bind; [apply requests_only_lift | intros ?].
    apply requests_only_bind; [apply requests_only_lift | intros iid].
    apply requests_only_bind; [| intros ?; apply requests_only_ret].
    unfold _interface_ip.
    apply requests_only_bind; [| intros ?; apply requests_only_lift].
    apply requests_only_api_call. right; right; right. by exists iid. }
  intros ?.
  apply requests_only_bind; [apply requests_only_lift | intros ?].
  apply requests_only_ret.
Qed.

(** X4.  A run only ever requests the four endpoints, under the base URL
    fixed at start: the device list, the interface listing of a device,
    the detail of a device, the addresses of an interface.  This holds for
    every request of every run, whether it succeeds or fails, whatever the
    server answers. *)
Theorem requests_stay_on_the_four_endpoints
    (py_repr : json -> string)
    (server : list string -> string -> option Response)
    (args : Args) (netbox_server netbox_protocol : string)
    (netbox_port : Z) (netbox_token : option string)
    (r : result unit) (w' : world) :
  NetboxInventory py_repr server args netbox_server netbox_protocol
    netbox_port netbox_token start = (r, w') ->
  Forall (inventory_url py_repr
            (init_self netbox_server netbox_protocol netbox_port netbox_token))
         (calls w').
Proof.
  unfold NetboxInventory. intros Hrun.
  assert (Hinv : requests_only
            (inventory_url py_repr
               (init_self netbox_server netbox_protocol netbox_port netbox_token))
            (NetboxInventory py_repr server args netbox_server netbox_protocol
               netbox_port netbox_token)).
  { unfold NetboxInventory. apply requests_only_bind.
    - destruct (args_list args).
      + apply requests_only_bind;
          [apply requests_only_process_devices | intros ?; apply requests_only_lift].
      + destruct (args_host args) as [[| ? ?] |]; apply requests_only_ret.
    - intros doc w r0 w0. unfold print. intros [= <- <-]. simpl.
      exists []. split; [by rewrite app_nil_r | constructor]. }
  destruct (Hinv _ _ _ Hrun) as (ext & Hcalls & Hall).
  by rewrite Hcalls.
Qed.

Lemma requests_stay_on_the_four_endpoints_witness :
  Forall (inventory_url no_repr main_self)
         (calls (snd (main no_repr flaky_server list_mode start))).
Proof.
  apply (requests_stay_on_the_four_endpoints no_repr flaky_server list_mode
           "netbox01.lab" "http" 80
           (Some "0123456789abcdef0123456789abcdefghijh231")
           (fst (main no_repr flaky_server list_mode start))).
  reflexivity.
Defined.

(** ** The requests of a device, in order *)

Lemma api_call_log server self api_endpoint w j w' :
  _api_call server self api_endpoint w = (Ok j, w') ->
  calls w' = calls w ++ [api_url self api_endpoint] /\ stdout w' = stdout w.
Proof.
  rewrite api_call_run. destruct (headers self); [| discriminate].
  by intros [= _ <-].
Qed.

Lemma api_then_lift_log {A} server self api_endpoint (f : json -> result A)
    w a w' :
  bind (_api_call server self api_endpoint) (fun j => lift (f j)) w
    = (Ok a, w') ->
  calls w' = calls w ++ [api_url self api_endpoint].
Proof.
  intros H. apply bind_Ok in H as (j & w1 & Hcall & H).
  apply lift_Ok in H as [_ ->]. by apply api_call_log in Hcall as [? _].
Qed.

Lemma interface_hashes_log py_repr server self items w entries w' :
  mapM (interface_hash py_repr server self) items w = (Ok entries, w') ->
  exists ids,
    rmap (fun interface => getitem interface "id") items = Ok ids /\
    calls w' = calls w ++ map (addresses_url py_repr self) ids /\
    length entries = length items.
Proof.
  revert w entries w'. induction items as [| interface items IH];
    intros w entries w'; simpl.
  - intros H. apply ret_Ok in H as [-> ->]. exists [].
    by rewrite app_nil_r.
  - intros H. apply bind_Ok in H as (entry & w1 & Hentry & H).
    apply bind_Ok in H as (rest & w2 & Hrest & H).
    apply ret_Ok in H as [-> ->].
    unfold interface_hash in Hentry.
    apply bind_Ok in Hentry as (name & wa & Hname & Hentry).
    apply lift_Ok in Hname as [_ ->].
    apply bind_Ok in Hentry as (id & wb & Hid & Hentry).
    apply lift_Ok in Hid as [Hid ->].
    apply bind_Ok in Hentry as (addresses & wc & Haddr & Hentry).
    apply ret_Ok in Hentry as [_ ->].
    apply api_then_lift_log in Haddr.
    destruct (IH _ _ _ Hrest) as (ids & Hids & Hcalls & Hlen).
    exists (id :: ids). rewrite Hid, Hids. simpl.
    split; [done |]. split; [| by rewrite Hlen].
    rewrite Hcalls, Haddr, <- app_assoc. done.
Qed.

Lemma device_hash_log py_repr server self device w record w' :
  device_hash py_repr server self device w = (Ok record, w') ->
  exists device_id answer listing interfaces interface_ids entries,
    getitem device "id" = Ok device_id /\
    fetch server (calls w) (interfaces_url py_repr self device_id) = Ok answer /\
    getitem answer "results" = Ok listing /\
    py_iter listing = Ok interfaces /\
    rmap (fun interface => getitem interface "id") interfaces
      = Ok interface_ids /\
    getitem record "interfaces" = Ok (JList entries) /\
    length entries = length interfaces /\
    calls w' =
      calls w ++ device_requests py_repr self device_id interface_ids.
Proof.
  intros H. unfold device_hash in H.
  apply bind_Ok in H as (device_id & w0 & Hid & H). apply lift_Ok in Hid as [Hid ->].
  apply bind_Ok in H as (listing & w1 & Hlisting & H).
  apply bind_Ok in H as (vlans & w2 & Hvlans & H).
  apply bind_Ok in H as (ip & w3 & Hip & H).
  apply bind_Ok in H as (port & w4 & Hport & H).
  apply bind_Ok in H as (items & w5 & Hitems & H).
  apply lift_Ok in Hitems as [Hitems ->].
  apply bind_Ok in H as (int_list & w6 & Hints & H).
  apply bind_Ok in H as (name & w7 & Hname & H). apply lift_Ok in Hname as [_ ->].
  apply ret_Ok in H as [-> ->].
  pose proof (device_interfaces_Ok _ _ _ _ _ _ _ Hlisting)
    as (answer & Hanswer & Hresults).
  apply api_then_lift_log in Hlisting.
  unfold _process_interface_vlans in Hvlans.
  apply bind_Ok in Hvlans as (listing2 & w1' & Hlisting2 & Hvlans).
  apply lift_Ok in Hvlans as [_ ->].
  apply api_then_lift_log in Hlisting2.
  apply api_then_lift_log in Hip. apply api_then_lift_log in Hport.
  apply interface_hashes_log in Hints as (ids & Hids & Hcalls & Hlen).
  exists device_id, answer, listing, items, ids, int_list.
  repeat split; try done.
  rewrite Hcalls, Hport, Hip, Hlisting2, Hlisting.
  unfold device_requests, interfaces_url, detail_url.
  by rewrite <- !app_assoc.
Qed.

(** X5.  For each device [_process_devices] sends, in this order: the
    interface listing twice (once for the addressing pass, once for the
    VLAN pass), the device detail twice (primary IP, then SSH port), and
    then one address query per interface of the first listing, in listing
    order. *)
Theorem device_requests_in_order
    (py_repr : json -> string)
    (server : list string -> string -> option Response)
    (self : Self) (device record : json) (w w' : world) :
  device_hash py_repr server self device w = (Ok record, w') ->
  exists device_id answer listing interfaces interface_ids,
    getitem device "id" = Ok device_id /\
    fetch server (calls w) (interfaces_url py_repr self device_id) = Ok answer /\
    getitem answer "results" = Ok listing /\
    py_iter listing = Ok interfaces /\
    rmap (fun interface => getitem interface "id") interfaces
      = Ok interface_ids /\
    calls w' =
      calls w ++ device_requests py_repr self device_id interface_ids.
Proof.
  intros H. apply device_hash_log in H
    as (device_id & answer & listing & items & ids & entries & H).
  exists device_id, answer, listing, items, ids. tauto.
Qed.

Lemma device_requests_in_order_witness :
  exists device_id answer listing interfaces interface_ids,
    getitem (dict_lit [("id", JNum 1); ("name", JStr "sw1")]) "id"
      = Ok device_id /\
    fetch sw1_server [] (interfaces_url no_repr main_self device_id)
      = Ok answer /\
    getitem answer "results" = Ok listing /\
    py_iter listing = Ok interfaces /\
    rmap (fun interface => getitem interface "id") interfaces
      = Ok interface_ids /\
    calls (snd (device_hash no_repr sw1_server main_self
                  (dict_lit [("id", JNum 1); ("name", JStr "sw1")]) start)) =
      [] ++ device_requests no_repr main_self device_id interface_ids.
Proof.
  apply (device_requests_in_order no_repr sw1_server main_self
           (dict_lit [("id", JNum 1); ("name", JStr "sw1")])
           (match fst (device_hash no_repr sw1_server main_self
                         (dict_lit [("id", JNum 1); ("name", JStr "sw1")]) start)
            with Ok record => record | Raise _ => JNull end)
           start).
  reflexivity.
Defined.

Lemma device_hash_count py_repr server self device w record w' :
  device_hash py_repr server self device w = (Ok record, w') ->
  length (calls w') = (length (calls w) + 4 + interface_count record)%nat.
Proof.
  intros H. apply device_hash_log in H
    as (id & answer & listing & items & ids & entries
        & _ & _ & _ & _ & Hids & Hentries & Hlen & Hcalls).
  apply rmap_length in Hids.
  rewrite Hcalls. unfold device_requests, interface_count. rewrite Hentries.
  rewrite !length_app, length_map. simpl. lia.
Qed.

Lemma process_devices_count_loop py_repr server self devices w records w' :
  mapM (device_hash py_repr server self) devices w = (Ok records, w') ->
  length (calls w') =
    (length (calls w) + 4 * length records
     + sum_list (map interface_count records))%nat.
Proof.
  revert w records w'. induction devices as [| device devices IH];
    intros w records w'; simpl.
  - intros H. apply ret_Ok in H as [-> ->]. simpl. lia.
  - intros H. apply bind_Ok in H as (record & w1 & Hrecord & H).
    apply bind_Ok in H as (rest & w2 & Hrest & H).
    apply ret_Ok in H as [-> ->].
    apply device_hash_count in Hrecord. apply IH in Hrest. simpl. lia.
Qed.

(** X6.  A successful [_process_devices] has sent one request for the
    device list, four per device, and one more per interface entry of the
    records it returns: with [d] devices and [n] interfaces in all,
    [1 + 4 d + n] requests. *)
Theorem process_devices_request_count
    (py_repr : json -> string)
    (server : list string -> string -> option Response)
    (self : Self) (records : list json) (w w' : world) :
  _process_devices py_repr server self w = (Ok records, w') ->
  length (calls w') =
    (length (calls w) + 1 + 4 * length records
     + sum_list (map interface_count records))%nat.
Proof.
  unfold _process_devices, _device_list. intros H.
  apply bind_Ok in H as (answer & w1 & Hanswer & H).
  apply bind_Ok in H as (devices & w2 & Hdevices & H).
  apply lift_Ok in Hdevices as [_ ->].
  apply api_call_log in Hanswer as [Hcalls _].
  apply process_devices_count_loop in H.
  rewrite H, Hcalls, length_app. simpl. lia.
Qed.

Lemma process_devices_request_count_witness :
  length (calls (snd (_process_devices no_repr sw1_server main_self start))) =
    (length (calls start) + 1 + 4 * 1 + (1 + 0))%nat.
Proof.
  apply (process_devices_request_count no_repr sw1_server main_self
           (match fst (_process_devices no_repr sw1_server main_self start)
            with Ok records => records | Raise _ => [] end)
           start).
  reflexivity.
Defined.

(** ** From the device list to [all.hosts] *)

(** X7.  In the document a list-mode run prints, [all.hosts] is the list
    of the names of the devices the API listed, in the API's order, one
    per device: no device is dropped, reordered or merged on the way from
    the device list to [all.hosts]. *)
Theorem hosts_follow_the_device_list
    (py_repr : json -> string)
    (server : list string -> string -> option Response)
    (args : Args) (netbox_server netbox_protocol : string)
    (netbox_port : Z) (netbox_token : option string) (w' : world)
    (answer results : json) (devices : list json) :
  args_list args = true ->
  NetboxInventory py_repr server args netbox_server netbox_protocol
    netbox_port netbox_token start = (Ok tt, w') ->
  fetch server []
    (api_url (init_self netbox_server netbox_protocol netbox_port netbox_token)
       "dcim/devices") = Ok answer ->
  getitem answer "results" = Ok results ->
  py_iter results = Ok devices ->
  exists doc hosts,
    stdout w' = [doc] /\
    all_hosts doc = Ok (JList hosts) /\
    rmap (fun device => getitem device "name") devices = Ok hosts.
Proof.
  intros Hlist Hrun Hanswer Hresults Hdevices.
  apply list_run_Ok in Hrun as (records & doc & w1 & Hrecords & Hdoc & Hout);
    [| done].
  apply process_devices_Ok in Hrecords
    as (answer' & results' & devices' & Hanswer' & Hresults' & Hdevices' & Hall).
  change (calls start) with (@nil string) in Hanswer'.
  rewrite Hanswer in Hanswer'. injection Hanswer' as <-.
  rewrite Hresults in Hresults'. injection Hresults' as <-.
  rewrite Hdevices in Hdevices'. injection Hdevices' as <-.
  apply create_inventory_output_items in Hdoc as (items & Hitems & ->).
  destruct (items_names _ _ Hitems) as [Hnames _].
  exists (inventory_document (fold_left store items []) (map item_name items)),
    (map item_name items).
  repeat split; try done.
  apply rmap_Ok. apply rmap_Ok in Hnames.
  refine (Forall2_common
            (fun record device =>
               exists wa wb, device_hash py_repr server _ device wa
                             = (Ok record, wb))
            (fun record name => getitem record "name" = Ok name)
            _ records devices (map item_name items) _ _ Hnames).
  - intros record device name (wa & wb & Hhash) Hname.
    apply device_hash_Ok in Hhash
      as (? & name' & ? & ? & ? & ? & ? & ? & ? & ? & ? & ?
          & _ & Hname' & _ & _ & _ & _ & _ & _ & ->).
    injection Hname as <-. done.
  - by apply Forall2_flip.
Qed.

Lemma hosts_follow_the_device_list_witness :
  exists doc hosts,
    stdout (snd (main no_repr namesake_server list_mode start)) = [doc] /\
    all_hosts doc = Ok (JList hosts) /\
    rmap (fun device => getitem device "name")
      [dict_lit [("id", JNum 1); ("name", JStr "sw1")];
       dict_lit [("id", JNum 2); ("name", JStr "sw1")]] = Ok hosts.
Proof.
  apply (hosts_follow_the_device_list no_repr namesake_server list_mode
           "netbox01.lab" "http" 80
           (Some "0123456789abcdef0123456789abcdefghijh231")
           (snd (main no_repr namesake_server list_mode start))
           (dict_lit [("results",
              JList [dict_lit [("id", JNum 1); ("name", JStr "sw1")];
                     dict_lit [("id", JNum 2); ("name", JStr "sw1")]])])
           (JList [dict_lit [("id", JNum 1); ("name", JStr "sw1")];
                   dict_lit [("id", JNum 2); ("name", JStr "sw1")]]));
    reflexivity.
Defined.

(** ** When the formatter fails *)

Lemma rmap_Raise {A B} (f : A -> result B) l e :
  rmap f l = Raise e <->
  exists i x,
    l !! i = Some x /\ f x = Raise e /\
    forall j x', (j < i)%nat -> l !! j = Some x' -> exists y, f x' = Ok y.
Proof.
  induction l as [| a l IH]; simpl.
  - split; [discriminate | by intros (i & x & ? & _)].
  - destruct (f a) as [b | e'] eqn:Ea; simpl.
    + destruct (rmap f l) as [ys | e'] eqn:El; simpl.
      * split; [discriminate |].
        intros (i & x & Hi & Hx & Hbefore). destruct i as [| i]; simpl in Hi.
        -- injection Hi as <-. congruence.
        -- assert (Hr : Raise e = Raise e :> result (list B)) by done.
           assert (Hbad : @Ok (list B) ys = Raise e); [| discriminate].
           apply IH. exists i, x. repeat split; try done.
           intros j x' Hlt Hj. apply (Hbefore (S j)); [lia | done].
      * split.
        -- intros [= ->]. destruct (proj1 IH eq_refl) as (i & x & Hi & Hx & Hbefore).
           exists (S i), x. repeat split; try done.
           intros [| j] x' Hlt Hj; simpl in Hj.
           ++ injection Hj as <-. eauto.
           ++ apply (Hbefore j); [lia | done].
        -- intros (i & x & Hi & Hx & Hbefore). destruct i as [| i]; simpl in Hi.
           ++ injection Hi as <-. congruence.
           ++ f_equal. assert (Hr : Raise e' = Raise e :> result (list B));
                [| by injection Hr].
              apply IH. exists i, x. repeat split; try done.
              intros j x' Hlt Hj. apply (Hbefore (S j)); [lia | done].
    + split.
      * intros [= ->]. exists 0%nat, a. repeat split; try done. lia.
      * intros (i & x & Hi & Hx & Hbefore). destruct i as [| i]; simpl in Hi.
        -- injection Hi as <-. congruence.
        -- destruct (Hbefore 0%nat a) as [y Hy]; [lia | done |]. congruence.
Qed.

(** X8.  [create_inventory_output] raises exactly when some device has no
    storable item (a key of the record is missing, or its name is
    unhashable), and then with the exception of the first such device in
    the list; the devices before it do not matter and no document is
    returned. *)
Theorem formatter_raises_at_first_bad_device (devices : list json) (e : exn) :
  create_inventory_output devices = Raise e <->
  exists i device,
    devices !! i = Some device /\
    hostvars_item device = Raise e /\
    forall j device', (j < i)%nat -> devices !! j = Some device' ->
                      exists item, hostvars_item device' = Ok item.
Proof.
  rewrite <- rmap_Raise.
  unfold create_inventory_output. rewrite inventory_loop_items.
  destruct (rmap hostvars_item devices); simpl; split; congruence.
Qed.

Lemma to_key_Raise v e : to_key v = Raise e -> e = TypeError.
Proof. destruct v; simpl; congruence. Qed.

(** X9.  The records [_process_devices] returns always carry the keys the
    formatter reads, so formatting them can only fail on a device name
    that cannot be a dictionary key (a JSON array or object), and then
    with [TypeError]; when every name is hashable (a string, a number, a
    boolean or null) the document is built. *)
Theorem records_format_unless_name_unhashable
    (py_repr : json -> string)
    (server : list string -> string -> option Response)
    (self : Self) (records : list json) (w w1 : world) :
  _process_devices py_repr server self w = (Ok records, w1) ->
  (forall e,
     create_inventory_output records = Raise e ->
     e = TypeError /\
     exists record name,
       record ∈ records /\ getitem record "name" = Ok name /\
       to_key name = Raise TypeError) /\
  (Forall (fun record =>
             exists name key,
               getitem record "name" = Ok name /\ to_key name = Ok key)
          records ->
   exists doc, create_inventory_output records = Ok doc).
Proof.
  intros Hrecords.
  apply process_devices_Ok in Hrecords as (_ & _ & devices & _ & _ & _ & Hall).
  assert (Hshape : forall record, record ∈ records ->
            exists name, getitem record "name" = Ok name /\
              hostvars_item record =
                rbind (to_key name)
                  (fun key => Ok (name, key,
                     match getitem record "ansible_ssh_host",
                           getitem record "ansible_ssh_port",
                           getitem record "interfaces",
                           getitem record "vlans" with
                     | Ok h, Ok p, Ok i, Ok v => hostvars_of h p i v
                     | _, _, _, _ => JNull
                     end))).
  { intros record Hin. apply list_elem_of_lookup in Hin as [j Hj].
    destruct (Forall2_lookup_r _ _ _ _ _ Hall Hj) as (device & _ & wa & wb & Hhash).
    apply device_hash_Ok in Hhash
      as (? & name & ? & ? & ? & ? & ? & ? & ? & ? & ? & ?
          & _ & _ & _ & _ & _ & _ & _ & _ & ->).
    exists name. split; reflexivity. }
  split.
  - intros e Hraise. unfold create_inventory_output in Hraise.
    rewrite inventory_loop_items in Hraise.
    destruct (rmap hostvars_item records) as [items | e'] eqn:Hmap;
      [discriminate |].
    injection Hraise as ->.
    apply rmap_Raise in Hmap as (i & record & Hi & Hitem & _).
    apply list_elem_of_lookup_2 in Hi.
    destruct (Hshape record Hi) as (name & Hname & Heq).
    rewrite Heq in Hitem.
    destruct (to_key name) as [key | e'] eqn:Hkey; [discriminate |].
    injection Hitem as ->. pose proof (to_key_Raise _ _ Hkey) as ->.
    split; [done |]. by exists record, name.
  - intros Hnames.
    assert (Hitems : exists items, rmap hostvars_item records = Ok items).
    { apply rmap_total. apply Forall_forall. intros record Hin.
      destruct (Hshape record Hin) as (name & Hname & Heq).
      rewrite Forall_forall in Hnames.
      destruct (Hnames record Hin) as (name' & key & Hname' & Hkey).
      rewrite Hname in Hname'. injection Hname' as <-.
      rewrite Heq, Hkey. simpl. eauto. }
    destruct Hitems as [items Hitems].
    eexists. apply create_inventory_output_items. eauto.
Qed.

Lemma records_format_unless_name_unhashable_witness :
  exists doc,
    create_inventory_output
      (match fst (_process_devices no_repr sw1_server main_self start) with
       | Ok records => records
       | Raise _ => []
       end) = Ok doc.
Proof.
  apply (records_format_unless_name_unhashable no_repr sw1_server main_self
           _ start (snd (_process_devices no_repr sw1_server main_self start))
           eq_refl).
  constructor; [| constructor].
  exists (JStr "sw1"), (KStr "sw1"). split; reflexivity.
Defined.

(** ** The shape of the document *)

(** X10.  The document [create_inventory_output] returns always has the
    same shape: the group [all] with [hosts] and the static [vars], and
    [_meta] with [hostvars]; and every entry of [hostvars] consists of
    exactly the four variables [ansible_host], [ansible_port],
    [interfaces] and [vlans], copied from the fields [ansible_ssh_host],
    [ansible_ssh_port], [interfaces] and [vlans] of one of the devices
    given.  The [id] and [name] fields of a record are never copied into
    the host variables. *)
Theorem document_shape (devices : list json) (doc : json) :
  create_inventory_output devices = Ok doc ->
  exists hosts hv,
    doc = dict_lit [("all", dict_lit [("hosts", JList hosts);
                                      ("vars", all_vars)]);
                    ("_meta", dict_lit [("hostvars", JDict hv)])] /\
    forall key vars,
      (key, vars) ∈ hv ->
      exists device host port interfaces vlans,
        device ∈ devices /\
        getitem device "ansible_ssh_host" = Ok host /\
        getitem device "ansible_ssh_port" = Ok port /\
        getitem device "interfaces" = Ok interfaces /\
        getitem device "vlans" = Ok vlans /\
        vars = dict_lit [("ansible_host", host);
                         ("ansible_port", port);
                         ("interfaces", interfaces);
                         ("vlans", vlans)].
Proof.
  intros H. apply create_inventory_output_items in H as (items & Hitems & ->).
  exists (map item_name items), (fold_left store items []).
  split; [reflexivity |].
  intros key vars Hin.
  apply fold_store_entries in Hin as [Hin | (item & Hin & ->)].
  { by apply elem_of_nil in Hin. }
  apply list_elem_of_lookup in Hin as [j Hj].
  apply rmap_Ok in Hitems.
  destruct (Forall2_lookup_r _ _ _ _ _ Hitems Hj) as (device & Hdevice & Hitem).
  destruct item as [[name key'] vars].
  apply hostvars_item_Ok in Hitem
    as (_ & _ & host & port & interfaces & vlans & ? & ? & ? & ? & ->).
  exists device, host, port, interfaces, vlans.
  repeat split; try done. by eapply list_elem_of_lookup_2.
Qed.

Lemma document_shape_witness :
  exists hosts hv,
    twins_document =
      dict_lit [("all", dict_lit [("hosts", JList hosts);
                                  ("vars", all_vars)]);
                ("_meta", dict_lit [("hostvars", JDict hv)])] /\
    forall key vars,
      (key, vars) ∈ hv ->
      exists device host port interfaces vlans,
        device ∈ twins /\
        getitem device "ansible_ssh_host" = Ok host /\
        getitem device "ansible_ssh_port" = Ok port /\
        getitem device "interfaces" = Ok interfaces /\
        getitem device "vlans" = Ok vlans /\
        vars = dict_lit [("ansible_host", host);
                         ("ansible_port", port);
                         ("interfaces", interfaces);
                         ("vlans", vlans)].
Proof. apply (document_shape twins twins_document). reflexivity. Defined.

(** ** The management address, in full *)

Lemma str_split_head sep s :
  exists host rest,
    str_split sep s = host :: rest /\
    ~ In sep (list_ascii_of_string host) /\
    (s = host \/ exists tail, s = host +:+ String sep tail).
Proof.
  induction s as [| c s IH]; simpl.
  - exists "", []. split; [done |]. split; [by intros [] | by left].
  - destruct (Ascii.eqb c sep) eqn:E.
    + apply Ascii.eqb_eq in E as ->.
      exists "", (str_split sep s). split; [done |].
      split; [by intros [] |]. right. by exists s.
    + destruct IH as (host & rest & -> & Hnot & Hs).
      exists (String c host), rest. split; [done |]. split.
      * simpl. intros [-> | Hin]; [| done].
        by rewrite Ascii.eqb_refl in E.
      * destruct Hs as [-> | [tail ->]]; [by left |].
        right. by exists tail.
Qed.

(** X11.  Whatever the detail record, a management address returned by
    [_device_primary_ip] is either null (when [primary_ip] is null or
    otherwise false) or a string without any ['/']: the address up to its
    first ['/'], which is the whole address when it has no netmask. *)
Theorem primary_ip_is_null_or_slash_free
    (py_repr : json -> string)
    (server : list string -> string -> option Response)
    (self : Self) (device_id ip : json) (w w' : world) :
  _device_primary_ip py_repr server self device_id w = (Ok ip, w') ->
  exists detail primary_ip,
    fetch server (calls w) (detail_url py_repr self device_id) = Ok detail /\
    getitem detail "primary_ip" = Ok primary_ip /\
    ((truthy primary_ip = false /\ ip = JNull) \/
     (exists address host,
        truthy primary_ip = true /\
        getitem primary_ip "address" = Ok (JStr address) /\
        ip = JStr host /\
        ~ In "/"%char (list_ascii_of_string host) /\
        (address = host \/ exists mask, address = host +:+ "/" +:+ mask))).
Proof.
  unfold _device_primary_ip. rewrite api_then_lift.
  destruct (headers self); [| discriminate].
  intros [= H _]. apply rbind_Ok in H as (detail & Hdetail & H).
  apply rbind_Ok in H as (primary_ip & Hpip & H).
  exists detail, primary_ip. split; [done |]. split; [done |].
  destruct (truthy primary_ip) eqn:Htruthy.
  - right. apply rbind_Ok in H as (address & Haddress & H).
    apply rbind_Ok in H as (pieces & Hpieces & H).
    apply rbind_Ok in H as (first & Hfirst & [= <-]).
    destruct address as [| | | s | |]; try discriminate.
    injection Hpieces as <-.
    destruct (str_split_head "/" s) as (host & rest & Hsplit & Hnot & Hs).
    rewrite Hsplit in Hfirst. injection Hfirst as <-.
    exists s, host. repeat split; try done.
  - left. split; [done |]. by injection H.
Qed.

Lemma primary_ip_is_null_or_slash_free_witness :
  exists detail primary_ip,
    fetch sw1_server [] (detail_url no_repr main_self (JNum 1)) = Ok detail /\
    getitem detail "primary_ip" = Ok primary_ip /\
    ((truthy primary_ip = false /\ JStr "192.0.2.1" = JNull) \/
     (exists address host,
        truthy primary_ip = true /\
        getitem primary_ip "address" = Ok (JStr address) /\
        JStr "192.0.2.1" = JStr host /\
        ~ In "/"%char (list_ascii_of_string host) /\
        (address = host \/ exists mask, address = host +:+ "/" +:+ mask))).
Proof.
  apply (primary_ip_is_null_or_slash_free no_repr sw1_server main_self
           (JNum 1) (JStr "192.0.2.1") start
           (snd (_device_primary_ip no_repr sw1_server main_self (JNum 1) start))).
  reflexivity.
Defined.

(** ** Detail records the code cannot read *)

(** X12.  What the two detail lookups do with a record they cannot read:
    a missing [primary_ip] or [custom_fields] key raises (the [KeyError]
    of the subscript); a [primary_ip] that is set but whose [address]
    cannot be subscripted raises likewise; an [address] that is not a
    string raises [AttributeError] (it has no [split]); and custom fields
    that are set but have no [ASN] entry raise the [KeyError] of
    [['ASN']]. *)
Theorem unreadable_detail_raises
    (py_repr : json -> string)
    (server : list string -> string -> option Response)
    (self : Self) (device_id : json) (w : world) (detail : json) :
  headers self <> None ->
  fetch server (calls w) (detail_url py_repr self device_id) = Ok detail ->
  (forall e,
     getitem detail "primary_ip" = Raise e ->
     fst (_device_primary_ip py_repr server self device_id w) = Raise e) /\
  (forall primary_ip e,
     getitem detail "primary_ip" = Ok primary_ip ->
     truthy primary_ip = true ->
     getitem primary_ip "address" = Raise e ->
     fst (_device_primary_ip py_repr server self device_id w) = Raise e) /\
  (forall primary_ip address,
     getitem detail "primary_ip" = Ok primary_ip ->
     getitem primary_ip "address" = Ok address ->
     (forall s, address <> JStr s) ->
     fst (_device_primary_ip py_repr server self device_id w)
       = Raise AttributeError) /\
  (forall e,
     getitem detail "custom_fields" = Raise e ->
     fst (_device_ssh_port py_repr server self device_id w) = Raise e) /\
  (forall custom_fields e,
     getitem detail "custom_fields" = Ok custom_fields ->
     truthy custom_fields = true ->
     getitem custom_fields "ASN" = Raise e ->
     fst (_device_ssh_port py_repr server self device_id w) = Raise e).
Proof.
  intros Hheaders Hdetail. unfold detail_url in Hdetail.
  unfold _device_primary_ip, _device_ssh_port. rewrite !api_then_lift.
  destruct (headers self); [| done]. simpl. rewrite Hdetail. simpl.
  repeat split.
  - intros e ->. done.
  - intros primary_ip e -> Htruthy Haddress. simpl.
    by rewrite Htruthy, Haddress.
  - intros primary_ip address -> Haddress Hnot. simpl.
    rewrite (getitem_Ok_truthy _ _ _ Haddress), Haddress. simpl.
    destruct address as [| | | s | |]; try done. by destruct (Hnot s).
  - intros e ->. done.
  - intros custom_fields e -> Htruthy HASN. simpl. by rewrite Htruthy.
Qed.

Lemma unreadable_detail_raises_witness :
  fst (_device_primary_ip no_repr
         (fun _ _ => Some (ok200 (dict_lit
            [("primary_ip", dict_lit [("address", JNull)])])))
         main_self (JNum 1) start) = Raise AttributeError /\
  fst (_device_ssh_port no_repr
         (fun _ _ => Some (ok200 (dict_lit
            [("primary_ip", dict_lit [("address", JNull)])])))
         main_self (JNum 1) start) = Raise (KeyError (KStr "custom_fields")).
Proof.
  destruct (unreadable_detail_raises no_repr
              (fun _ _ => Some (ok200 (dict_lit
                 [("primary_ip", dict_lit [("address", JNull)])])))
              main_self (JNum 1) start
              (dict_lit [("primary_ip", dict_lit [("address", JNull)])]))
    as (_ & _ & Haddress & Hfields & _).
  - discriminate.
  - reflexivity.
  - split.
    + apply (Haddress (dict_lit [("address", JNull)]) JNull);
        [reflexivity | reflexivity | discriminate].
    + apply (Hfields (KeyError (KStr "custom_fields"))). reflexivity.
Defined.

(** ** VLAN entries *)

(** X13.  The entry [_process_interface_vlans] builds for an interface
    carries the interface's name and id, the [vid] of its untagged VLAN
    when one is set, and, when tagged VLANs are set, the [vid] of each of
    them, one per tagged VLAN and in the order listed. *)
Theorem vlan_entry_keeps_vids_in_order (interface entry : json) :
  vlan_map interface = Ok entry ->
  exists name id tagged untagged,
    getitem interface "name" = Ok name /\
    getitem interface "id" = Ok id /\
    getitem interface "tagged_vlans" = Ok tagged /\
    getitem interface "untagged_vlan" = Ok untagged /\
    getitem entry "interface" = Ok name /\
    getitem entry "int_id" = Ok id /\
    (truthy untagged = true ->
     exists vid, getitem untagged "vid" = Ok vid /\
                 getitem entry "untagged_vlan" = Ok vid) /\
    (truthy tagged = true ->
     exists vlans vids,
       py_iter tagged = Ok vlans /\
       Forall2 (fun vlan vid => getitem vlan "vid" = Ok vid) vlans vids /\
       getitem entry "tagged_vlans" = Ok (JList vids)).
Proof.
  unfold vlan_map. intros H.
  apply rbind_Ok in H as (tagged & Htagged & H).
  apply rbind_Ok in H as (tagged_vlan_list & Hlist & H).
  apply rbind_Ok in H as (untagged & Huntagged & H).
  apply rbind_Ok in H as (untagged_vid & Hvid & H).
  apply rbind_Ok in H as (name & Hname & H).
  apply rbind_Ok in H as (id & Hid & [= <-]).
  exists name, id, tagged, untagged.
  repeat split; try done.
  - intros Htrue. rewrite Htrue in Hvid. by exists untagged_vid.
  - intros Htrue. rewrite Htrue in Hlist.
    apply rbind_Ok in Hlist as (vlans & Hvlans & Hvids).
    exists vlans, tagged_vlan_list. split; [done |].
    split; [by apply rmap_Ok | done].
Qed.

Lemma vlan_entry_keeps_vids_in_order_witness :
  exists name id tagged untagged,
    getitem sw1_eth0 "name" = Ok name /\
    getitem sw1_eth0 "id" = Ok id /\
    getitem sw1_eth0 "tagged_vlans" = Ok tagged /\
    getitem sw1_eth0 "untagged_vlan" = Ok untagged /\
    getitem (dict_lit [("interface", JStr "eth0");
                       ("int_id", JNum 10);
                       ("untagged_vlan", JNum 1);
                       ("tagged_vlans", JList [JNum 100])]) "interface"
      = Ok name /\
    getitem (dict_lit [("interface", JStr "eth0");
                       ("int_id", JNum 10);
                       ("untagged_vlan", JNum 1);
                       ("tagged_vlans", JList [JNum 100])]) "int_id" = Ok id /\
    (truthy untagged = true ->
     exists vid, getitem untagged "vid" = Ok vid /\
                 getitem (dict_lit [("interface", JStr "eth0");
                                    ("int_id", JNum 10);
                                    ("untagged_vlan", JNum 1);
                                    ("tagged_vlans", JList [JNum 100])])
                   "untagged_vlan" = Ok vid) /\
    (truthy tagged = true ->
     exists vlans vids,
       py_iter tagged = Ok vlans /\
       Forall2 (fun vlan vid => getitem vlan "vid" = Ok vid) vlans vids /\
       getitem (dict_lit [("interface", JStr "eth0");
                          ("int_id", JNum 10);
                          ("untagged_vlan", JNum 1);
                          ("tagged_vlans", JList [JNum 100])])
         "tagged_vlans" = Ok (JList vids)).
Proof. apply (vlan_entry_keeps_vids_in_order sw1_eth0). reflexivity. Defined.

(** ** Interface entries *)

Lemma interface_hash_fetch py_repr server self interface w entry w' :
  interface_hash py_repr server self interface w = (Ok entry, w') ->
  exists name id answer addresses,
    getitem interface "name" = Ok name /\
    getitem interface "id" = Ok id /\
    fetch server (calls w) (addresses_url py_repr self id) = Ok answer /\
    getitem answer "results" = Ok addresses /\
    entry = dict_lit [("interface_name", name);
                      ("interface_id", id);
                      ("ip_address", addresses)].
Proof.
  unfold interface_hash. intros H.
  apply bind_Ok in H as (name & w1 & Hname & H). apply lift_Ok in Hname as [? ->].
  apply bind_Ok in H as (id & w2 & Hid & H). apply lift_Ok in Hid as [? ->].
  apply bind_Ok in H as (addresses & w3 & Haddr & H). apply ret_Ok in H as [-> _].
  unfold _interface_ip in Haddr. rewrite api_then_lift in Haddr.
  destruct (headers self); [| discriminate].
  injection Haddr as Haddr _. apply rbind_Ok in Haddr as (answer & ? & ?).
  by exists name, id, answer, addresses.
Qed.

(** X14.  In the record of a device, [interfaces] has one entry per
    interface of the listing fetched first, in listing order; each entry
    carries that interface's name and id, and under [ip_address] the
    [results] of the address query for that id exactly as the API returned
    them: the address records are passed through untouched. *)
Theorem interface_entries_follow_listing
    (py_repr : json -> string)
    (server : list string -> string -> option Response)
    (self : Self) (device record : json) (w w' : world) :
  device_hash py_repr server self device w = (Ok record, w') ->
  exists device_id answer listing interfaces entries,
    getitem device "id" = Ok device_id /\
    fetch server (calls w) (interfaces_url py_repr self device_id) = Ok answer /\
    getitem answer "results" = Ok listing /\
    py_iter listing = Ok interfaces /\
    getitem record "interfaces" = Ok (JList entries) /\
    Forall2
      (fun interface entry =>
         exists name id history addresses_answer addresses,
           getitem interface "name" = Ok name /\
           getitem interface "id" = Ok id /\
           fetch server history (addresses_url py_repr self id)
             = Ok addresses_answer /\
           getitem addresses_answer "results" = Ok addresses /\
           entry = dict_lit [("interface_name", name);
                             ("interface_id", id);
                             ("ip_address", addresses)])
      interfaces entries.
Proof.
  intros H. apply device_hash_Ok in H
    as (device_id & name & listing & vlans & ip & port & items & int_list
        & w1 & w2 & w3 & w4 & Hid & _ & Hlisting & _ & _ & _ & Hitems
        & Hints & ->).
  apply device_interfaces_Ok in Hlisting as (answer & Hanswer & Hresults).
  exists device_id, answer, listing, items, int_list.
  repeat split; try done.
  apply mapM_Ok in Hints.
  eapply Forall2_impl; [exact Hints |].
  intros interface entry (wa & wb & Hentry). simpl in Hentry.
  apply interface_hash_fetch in Hentry
    as (nm & id & ans & addresses & ? & ? & ? & ? & ->).
  by exists nm, id, (calls wa), ans, addresses.
Qed.

Lemma interface_entries_follow_listing_witness :
  exists device_id answer listing interfaces entries,
    getitem (dict_lit [("id", JNum 1); ("name", JStr "sw1")]) "id"
      = Ok device_id /\
    fetch sw1_server [] (interfaces_url no_repr main_self device_id)
      = Ok answer /\
    getitem answer "results" = Ok listing /\
    py_iter listing = Ok interfaces /\
    getitem (match fst (device_hash no_repr sw1_server main_self
                          (dict_lit [("id", JNum 1); ("name", JStr "sw1")])
                          start)
             with Ok record => record | Raise _ => JNull end) "interfaces"
      = Ok (JList entries) /\
    Forall2
      (fun interface entry =>
         exists name id history addresses_answer addresses,
           getitem interface "name" = Ok name /\
           getitem interface "id" = Ok id /\
           fetch sw1_server history (addresses_url no_repr main_self id)
             = Ok addresses_answer /\
           getitem addresses_answer "results" = Ok addresses /\
           entry = dict_lit [("interface_name", name);
                             ("interface_id", id);
                             ("ip_address", addresses)])
      interfaces entries.
Proof.
  apply (interface_entries_follow_listing no_repr sw1_server main_self
           (dict_lit [("id", JNum 1); ("name", JStr "sw1")]) _ start
           (snd (device_hash no_repr sw1_server main_self
                   (dict_lit [("id", JNum 1); ("name", JStr "sw1")]) start))).
  reflexivity.
Defined.

(** ** The device list itself *)

Lemma list_run_after_device_list py_repr server args netbox_server
    netbox_protocol netbox_port netbox_token answer :
  args_list args = true ->
  headers (init_self netbox_server netbox_protocol netbox_port netbox_token)
    <> None ->
  fetch server []
    (api_url (init_self netbox_server netbox_protocol netbox_port netbox_token)
       "dcim/devices") = Ok answer ->
  NetboxInventory py_repr server args netbox_server netbox_protocol
    netbox_port netbox_token start =
  bind (bind (bind (lift (let! r := getitem answer "results" in py_iter r))
                   (mapM (device_hash py_repr server
                            (init_self netbox_server netbox_protocol
                               netbox_port netbox_token))))
             (fun devices => lift (create_inventory_output devices)))
       print
       {| calls := [api_url (init_self netbox_server netbox_protocol
                               netbox_port netbox_token) "dcim/devices"];
          stdout := [] |}.
Proof.
  intros Hlist Hheaders Hanswer.
  unfold NetboxInventory. rewrite Hlist.
  unfold _process_devices, _device_list.
  unfold bind at 1 2 3. rewrite api_call_run.
  destruct (headers _); [| done].
  change (calls start) with (@nil string). rewrite Hanswer. reflexivity.
Qed.

(** X15.  When the API lists no device (its [results] is an empty array,
    or anything else that iterates to nothing), a list-mode run sends that
    one request and prints the document with an empty [all.hosts], the
    static [all.vars] and an empty [_meta.hostvars]: not the bare
    [_empty_inventory] of the other modes. *)
Theorem empty_device_list_prints_empty_groups
    (py_repr : json -> string)
    (server : list string -> string -> option Response)
    (args : Args) (netbox_server netbox_protocol : string)
    (netbox_port : Z) (netbox_token : option string)
    (answer results : json) :
  args_list args = true ->
  headers (init_self netbox_server netbox_protocol netbox_port netbox_token)
    <> None ->
  fetch server []
    (api_url (init_self netbox_server netbox_protocol netbox_port netbox_token)
       "dcim/devices") = Ok answer ->
  getitem answer "results" = Ok results ->
  py_iter results = Ok [] ->
  NetboxInventory py_repr server args netbox_server netbox_protocol
    netbox_port netbox_token start =
  (Ok tt,
   {| calls := [api_url (init_self netbox_server netbox_protocol netbox_port
                           netbox_token) "dcim/devices"];
      stdout := [dict_lit [("all", dict_lit [("hosts", JList []);
                                             ("vars", all_vars)]);
                           ("_meta", dict_lit [("hostvars", JDict [])])]] |}).
Proof.
  intros Hlist Hheaders Hanswer Hresults Hempty.
  rewrite (list_run_after_device_list _ _ _ _ _ _ _ _ Hlist Hheaders Hanswer).
  rewrite Hresults. simpl. rewrite Hempty. reflexivity.
Qed.

Lemma empty_device_list_prints_empty_groups_witness :
  main no_repr (fun _ _ => Some (ok200 (dict_lit [("results", JList [])])))
    list_mode start =
  (Ok tt,
   {| calls := ["http://netbox01.lab:80/api/dcim/devices"];
      stdout := [dict_lit [("all", dict_lit [("hosts", JList []);
                                             ("vars", all_vars)]);
                           ("_meta", dict_lit [("hostvars", JDict [])])]] |}).
Proof.
  apply (empty_device_list_prints_empty_groups no_repr
           (fun _ _ => Some (ok200 (dict_lit [("results", JList [])])))
           list_mode "netbox01.lab" "http" 80
           (Some "0123456789abcdef0123456789abcdefghijh231")
           (dict_lit [("results", JList [])]) (JList []));
    try reflexivity.
  discriminate.
Defined.

(** X16.  When the answer to the device-list request cannot be read (it
    has no [results] key, is not an object, or its [results] cannot be
    iterated), a list-mode run raises the exception of that first read
    ([KeyError] or [TypeError]) after the single request, and prints
    nothing. *)
Theorem unreadable_device_list_aborts_run
    (py_repr : json -> string)
    (server : list string -> string -> option Response)
    (args : Args) (netbox_server netbox_protocol : string)
    (netbox_port : Z) (netbox_token : option string)
    (answer : json) (e : exn) :
  args_list args = true ->
  headers (init_self netbox_server netbox_protocol netbox_port netbox_token)
    <> None ->
  fetch server []
    (api_url (init_self netbox_server netbox_protocol netbox_port netbox_token)
       "dcim/devices") = Ok answer ->
  (let! results := getitem answer "results" in py_iter results) = Raise e ->
  NetboxInventory py_repr server args netbox_server netbox_protocol
    netbox_port netbox_token start =
  (Raise e,
   {| calls := [api_url (init_self netbox_server netbox_protocol netbox_port
                           netbox_token) "dcim/devices"];
      stdout := [] |}).
Proof.
  intros Hlist Hheaders Hanswer Hraise.
  rewrite (list_run_after_device_list _ _ _ _ _ _ _ _ Hlist Hheaders Hanswer).
  rewrite Hraise. reflexivity.
Qed.

Lemma unreadable_device_list_aborts_run_witness :
  main no_repr (fun _ _ => Some (ok200 (dict_lit [("count", JNum 0)])))
    list_mode start =
  (Raise (KeyError (KStr "results")),
   {| calls := ["http://netbox01.lab:80/api/dcim/devices"]; stdout := [] |}).
Proof.
  apply (unreadable_device_list_aborts_run no_repr
           (fun _ _ => Some (ok200 (dict_lit [("count", JNum 0)])))
           list_mode "netbox01.lab" "http" 80
           (Some "0123456789abcdef0123456789abcdefghijh231")
           (dict_lit [("count", JNum 0)]) (KeyError (KStr "results")));
    try reflexivity.
  discriminate.
Defined.

(** ** From the detail record to the host variables *)




(** ** The VLAN pass *)

(** X18.  The [vlans] of a device record come from a second fetch of the
    interface listing, made right after the first: there is one entry per
    interface of that second listing, in its order, each the [vlan_map]
    of its interface.  The listing fetched first (which [interfaces] is
    built from) plays no part in [vlans]. *)
Theorem vlan_entries_follow_second_listing
    (py_repr : json -> string)
    (server : list string -> string -> option Response)
    (self : Self) (device record : json) (w w' : world) :
  device_hash py_repr server self device w = (Ok record, w') ->
  exists device_id answer listing interfaces vlans,
    getitem device "id" = Ok device_id /\
    fetch server (calls w ++ [interfaces_url py_repr self device_id])
      (interfaces_url py_repr self device_id) = Ok answer /\
    getitem answer "results" = Ok listing /\
    py_iter listing = Ok interfaces /\
    getitem record "vlans" = Ok (JList vlans) /\
    Forall2 (fun interface entry => vlan_map interface = Ok entry)
      interfaces vlans.
Proof.
  intros H. apply device_hash_Ok in H
    as (device_id & name & listing & vlans & ip & port & items & int_list
        & w1 & w2 & w3 & w4 & Hid & _ & Hlisting & Hvlans & _ & _ & _ & _ & ->).
  apply api_then_lift_log in Hlisting.
  apply process_interface_vlans_Ok in Hvlans
    as (answer & listing2 & interfaces & Hanswer & Hresults & Hiter & Hmap).
  rewrite Hlisting in Hanswer.
  exists device_id, answer, listing2, interfaces, vlans.
  repeat split; try done. by apply rmap_Ok.
Qed.

Lemma vlan_entries_follow_second_listing_witness :
  exists device_id answer listing interfaces vlans,
    getitem (dict_lit [("id", JNum 1); ("name", JStr "sw1")]) "id"
      = Ok device_id /\
    fetch sw1_server ([] ++ [interfaces_url no_repr main_self device_id])
      (interfaces_url no_repr main_self device_id) = Ok answer /\
    getitem answer "results" = Ok listing /\
    py_iter listing = Ok interfaces /\
    getitem (match fst (device_hash no_repr sw1_server main_self
                          (dict_lit [("id", JNum 1); ("name", JStr "sw1")])
                          start)
             with Ok record => record | Raise _ => JNull end) "vlans"
      = Ok (JList vlans) /\
    Forall2 (fun interface entry => vlan_map interface = Ok entry)
      interfaces vlans.
Proof.
  apply (vlan_entries_follow_second_listing no_repr sw1_server main_self
           (dict_lit [("id", JNum 1); ("name", JStr "sw1")]) _ start
           (snd (device_hash no_repr sw1_server main_self
                   (dict_lit [("id", JNum 1); ("name", JStr "sw1")]) start))).
  reflexivity.
Defined.
